(** * Arcam AVR control protocol: frame codec, command catalogue and session

    A shallow embedding of
    [homeassistant/components/arcam_avr/arcam/{protocol,commands,connection}.py]
    together with the properties the specification states about them, and of
    the parts of [coordinator.py], [media_player.py] and [const.py] that use
    them: the broadcast handler, the source names and the volume clamp.

    Conventions of the embedding:
    - a Python [int] is a [Z]; a [bytes] object is a [list byte], and indexing
      it yields the integer value of the byte ([byte_val]);
    - a Python [str] is a [string] of ASCII characters ([ascii_only]); the
      source names of the tables are such strings, and [upper] is
      [str.upper()] on them;
    - a raised exception is the [Raise] branch of [result]; the interpolated
      text of an exception message is kept as the constructor's arguments;
    - the log calls of the pure functions of [protocol.py] and [commands.py]
      influence no value and are left out, except the warning of
      [validate_response]; the log records of the session methods are kept,
      their interpolated host, port and timeout left out;
    - awaiting is sequential composition: one method runs at a time, tasks
      handed to [asyncio.create_task] are recorded, not interleaved. *)

From Stdlib Require Import ZArith List String Ascii Bool Lia.
From Stdlib.Strings Require Import Byte.
From stdpp Require Import base option list gmap strings.

Local Open Scope Z_scope.

(** ** Python values and exceptions *)

Abbreviation bytes := (list byte).

(** Text of the messages the code raises or logs. *)
Inductive message :=
| InvalidZone (zone : Z)
| InvalidCommandCode (code : Z)
| DataTooLong (len : Z)
| ResponseTooShort (len : Z)
| InvalidStartByte (b : Z)
| InvalidEndByte (b : Z)
| DataLengthMismatch (expected got : Z)
| IncompleteHeader (len : Z)
| IncompleteResponse (expected got : Z)
| MissingEndByte
| NoReaderAvailable
| NotConnected
| CommandTimeout
| ConnectionErrorDuringCommand
| ConnectionTimeoutTo
| ConnectionFailedTo
| InvalidVolume (volume : Z)
| InvalidSource (source : string) (available : list string)
| InvalidRC5Data1 (d : Z)
| InvalidRC5Data2 (d : Z)
| ByteOutOfRange (v : Z).

(** The exception classes that occur: the four of [exceptions.py] that are
    raised, and the built-in ones. *)
Inductive exn :=
| ArcamProtocolError (m : message)
| ArcamConnectionError (m : message)
| ArcamTimeoutError (m : message)
| ValueError (m : message)
| IndexError
| AttributeError
| TimeoutError
| OSError.

Inductive result (A : Type) :=
| Ok (a : A)
| Raise (e : exn).
Arguments Ok {A} a.
Arguments Raise {A} e.

#[global] Instance result_ret : MRet result := @Ok.
#[global] Instance result_bind : MBind result :=
  fun A B f m => match m with Ok a => f a | Raise e => Raise e end.

(** Integer value of a byte, as Python's [data[i]] gives it. *)
Definition byte_val (b : byte) : Z := Z.of_N (Byte.to_N b).

(** One element of [bytes([...])] / [bytearray([...])]: values outside
    [range(256)] raise [ValueError]. *)
Definition byte_of_int (v : Z) : result byte :=
  if (0 <=? v) && (v <? 256) then
    match Byte.of_N (Z.to_N v) with
    | Some b => Ok b
    | None => Raise (ValueError (ByteOutOfRange v))
    end
  else Raise (ValueError (ByteOutOfRange v)).

Fixpoint bytes_of_ints (vs : list Z) : result bytes :=
  match vs with
  | [] => Ok []
  | v :: vs' =>
      b ← byte_of_int v;
      bs ← bytes_of_ints vs';
      mret (b :: bs)
  end.

Definition len {A} (l : list A) : Z := Z.of_nat (length l).

(** [data[i]] on a bytes object: negative indices count from the end, an
    index out of range raises [IndexError]. *)
Definition py_index (data : bytes) (i : Z) : result Z :=
  let j := if i <? 0 then i + len data else i in
  if (j <? 0) || (len data <=? j) then Raise IndexError
  else match data !! Z.to_nat j with
       | Some b => Ok (byte_val b)
       | None => Raise IndexError
       end.

(** [data[lo:hi]]: bounds are clamped, never an error. *)
Definition py_bound {A} (l : list A) (i : Z) : Z :=
  if i <? 0 then Z.max 0 (i + len l) else Z.min i (len l).

Definition py_slice {A} (l : list A) (lo hi : Z) : list A :=
  let a := py_bound l lo in
  let b := py_bound l hi in
  take (Z.to_nat (b - a)) (drop (Z.to_nat a) l).

(** ** protocol.py *)

Definition START_BYTE : Z := 0x21.
Definition END_BYTE : Z := 0x0D.

Definition ANSWER_OK : Z := 0x00.
Definition ANSWER_ZONE_INVALID : Z := 0x82.
Definition ANSWER_COMMAND_NOT_RECOGNIZED : Z := 0x83.
Definition ANSWER_PARAMETER_NOT_RECOGNIZED : Z := 0x84.
Definition ANSWER_COMMAND_INVALID_AT_THIS_TIME : Z := 0x85.
Definition ANSWER_INVALID_DATA_LENGTH : Z := 0x86.

Record ArcamCommand := mkArcamCommand {
  zone : Z;
  command_code : Z;
  data : bytes
}.

(** [ArcamCommand(zone, command_code, data)]: the dataclass constructor
    followed by [__post_init__]. *)
Definition ArcamCommand_new (zone command_code : Z) (data : bytes)
  : result ArcamCommand :=
  if negb ((1 <=? zone) && (zone <=? 2)) then
    Raise (ArcamProtocolError (InvalidZone zone))
  else if negb ((0 <=? command_code) && (command_code <=? 255)) then
    Raise (ArcamProtocolError (InvalidCommandCode command_code))
  else if len data >? 255 then
    Raise (ArcamProtocolError (DataTooLong (len data)))
  else Ok (mkArcamCommand zone command_code data).

Record ArcamResponse := mkArcamResponse {
  r_zone : Z;
  r_command_code : Z;
  answer_code : Z;
  r_data : bytes
}.

Definition is_success (r : ArcamResponse) : bool :=
  answer_code r =? ANSWER_OK.

Definition error_messages : gmap Z string :=
  list_to_map
    [ (ANSWER_ZONE_INVALID, "Invalid zone specified"%string);
      (ANSWER_COMMAND_NOT_RECOGNIZED, "Command not recognized"%string);
      (ANSWER_PARAMETER_NOT_RECOGNIZED, "Parameter not recognized"%string);
      (ANSWER_COMMAND_INVALID_AT_THIS_TIME, "Command invalid at this time"%string);
      (ANSWER_INVALID_DATA_LENGTH, "Invalid data length"%string) ].

Definition error_message (r : ArcamResponse) : option string :=
  error_messages !! answer_code r.

Definition encode_command (command : ArcamCommand) : result bytes :=
  let data_length := len (data command) in
  command_bytes ← bytes_of_ints
    [START_BYTE; zone command; command_code command; data_length];
  let command_bytes :=
    match data command with
    | [] => command_bytes
    | _ => command_bytes ++ data command
    end in
  e ← byte_of_int END_BYTE;
  mret (command_bytes ++ [e]).

Definition decode_response (data : bytes) : result ArcamResponse :=
  if len data <? 6 then
    Raise (ArcamProtocolError (ResponseTooShort (len data)))
  else
    first ← py_index data 0;
    if negb (first =? START_BYTE) then
      Raise (ArcamProtocolError (InvalidStartByte first))
    else
      last ← py_index data (-1);
      if negb (last =? END_BYTE) then
        Raise (ArcamProtocolError (InvalidEndByte last))
      else
        zone ← py_index data 1;
        command_code ← py_index data 2;
        answer_code ← py_index data 3;
        data_length ← py_index data 4;
        let expected_length := 6 + data_length in
        if negb (len data =? expected_length) then
          Raise (ArcamProtocolError
                   (DataLengthMismatch expected_length (len data)))
        else
          let response_data :=
            if data_length >? 0 then py_slice data 5 (5 + data_length)
            else [] in
          mret (mkArcamResponse zone command_code answer_code response_data).

(** A log record: level and text. *)
Inductive level := DEBUG | INFO | WARNING | ERROR.

Inductive log_text :=
| CommandCodeMismatch (expected got : Z)
| ResponseCommandCodeMismatch
| SendingCommand (c : ArcamCommand)
| ReceivedResponse (r : ArcamResponse)
| ReceivedBroadcast (r : ArcamResponse)
| BroadcastListenerError (e : exn)
| BroadcastListenerFailed (e : exn)
| BroadcastListenerStopped
| CommandTimeoutAfter
| ConnectionErrorDuring (e : exn)
| ConnectingTo
| ConnectedTo
| ConnectionLost
| ReconnectionAttempt (attempt max delay : Z)
| ReconnectionAttemptFailed (attempt : Z) (e : exn)
| ReconnectionSuccessful
| MaxReconnectionAttemptsReached.

Definition log_record : Type := level * log_text.

(** [validate_response] returns its verdict and the records it logs. *)
Definition validate_response (response : ArcamResponse) (expected_command : Z)
  : bool * list log_record :=
  if negb (r_command_code response =? expected_command) then
    (false,
     [(WARNING, CommandCodeMismatch expected_command (r_command_code response))])
  else (true, []).

Definition create_status_request (zone command_code : Z) : result ArcamCommand :=
  d ← bytes_of_ints [0xF0];
  ArcamCommand_new zone command_code d.

(** ** commands.py *)

Definition POWER : Z := 0x00.
Definition SOFTWARE_VERSION : Z := 0x04.
Definition RC5_SIMULATE : Z := 0x08.
Definition VOLUME : Z := 0x0D.
Definition MUTE : Z := 0x0E.
Definition SOURCE : Z := 0x1D.

Definition RC5_SOURCES_items : list (string * (Z * Z)) :=
  [ ("CD", (0x10, 0x76)); ("BD", (0x10, 0x62)); ("AV", (0x10, 0x5E));
    ("STB", (0x10, 0x64)); ("SAT", (0x10, 0x1B)); ("PVR", (0x10, 0x60));
    ("VCR", (0x10, 0x63)); ("AUX", (0x10, 0x63)); ("GAME", (0x10, 0x61));
    ("NET", (0x10, 0x5C)); ("FM", (0x10, 0x1C)); ("DAB", (0x10, 0x48));
    ("BT", (0x10, 0x7A)); ("USB", (0x10, 0x7B)); ("UHD", (0x10, 0x7D)) ]%string.

Definition RC5_SOURCES : gmap string (Z * Z) := list_to_map RC5_SOURCES_items.

Definition RC5_MUTE : Z * Z := (0x10, 0x0D).

Definition SOURCE_CODES : gmap Z string :=
  list_to_map
    [ (0x00, "CD"); (0x01, "BD"); (0x02, "AV"); (0x03, "STB"); (0x04, "SAT");
      (0x05, "PVR"); (0x06, "VCR"); (0x07, "AUX"); (0x08, "GAME");
      (0x09, "NET"); (0x0A, "FM"); (0x0B, "DAB"); (0x0C, "BT"); (0x0D, "USB");
      (0x0E, "UHD") ]%string.

Definition STATUS_REQUEST : Z := 0xF0.

(** A [string] stands for a Python [str] of ASCII characters: the names in
    the tables of this module, and the names handed to the functions below.
    [ascii_only] is [str.isascii()]. *)
Definition ascii_char (c : ascii) : bool := (N_of_ascii c <? 128)%N.

Fixpoint ascii_only (s : string) : bool :=
  match s with
  | EmptyString => true
  | String c s' => ascii_char c && ascii_only s'
  end.

(** [str.upper()] on an ASCII name: the letters a-z become A-Z and every
    other ASCII character is kept. Python's case mapping of the characters
    outside ASCII is not this function (it sends U+017F to S and U+00DF to
    SS, for instance), so [upper] is [str.upper()] on the names that
    [ascii_only] accepts and on no others; the properties of the lookups by
    name are stated for these names. *)
Definition upper_ascii (c : ascii) : ascii :=
  let n := N_of_ascii c in
  if ((97 <=? n) && (n <=? 122))%N then ascii_of_N (n - 32) else c.

Fixpoint upper (s : string) : string :=
  match s with
  | EmptyString => EmptyString
  | String c s' => String (upper_ascii c) (upper s')
  end.

(** [sorted(...)] on strings: insertion into an ordered list. *)
Fixpoint insert_sorted (s : string) (l : list string) : list string :=
  match l with
  | [] => [s]
  | x :: l' => if String.leb s x then s :: l else x :: insert_sorted s l'
  end.

Definition sorted (l : list string) : list string :=
  foldr insert_sorted [] l.

Definition zone_ok (zone : Z) : bool := (1 <=? zone) && (zone <=? 2).

Module ArcamCommands.

Definition power_on (zone : Z) : result ArcamCommand :=
  if negb (zone_ok zone) then Raise (ValueError (InvalidZone zone))
  else d ← bytes_of_ints [0x01]; ArcamCommand_new zone POWER d.

Definition power_off (zone : Z) : result ArcamCommand :=
  if negb (zone_ok zone) then Raise (ValueError (InvalidZone zone))
  else d ← bytes_of_ints [0x00]; ArcamCommand_new zone POWER d.

Definition get_power_status (zone : Z) : result ArcamCommand :=
  if negb (zone_ok zone) then Raise (ValueError (InvalidZone zone))
  else d ← bytes_of_ints [STATUS_REQUEST]; ArcamCommand_new zone POWER d.

Definition set_volume (volume zone : Z) : result ArcamCommand :=
  if negb (zone_ok zone) then Raise (ValueError (InvalidZone zone))
  else if negb ((0 <=? volume) && (volume <=? 99)) then
    Raise (ValueError (InvalidVolume volume))
  else d ← bytes_of_ints [volume]; ArcamCommand_new zone VOLUME d.

Definition toggle_mute (zone : Z) : result ArcamCommand :=
  if negb (zone_ok zone) then Raise (ValueError (InvalidZone zone))
  else d ← bytes_of_ints [RC5_MUTE.1; RC5_MUTE.2];
       ArcamCommand_new zone RC5_SIMULATE d.

Definition select_source (source : string) (zone : Z) : result ArcamCommand :=
  if negb (zone_ok zone) then Raise (ValueError (InvalidZone zone))
  else
    let source_upper := upper source in
    match RC5_SOURCES !! source_upper with
    | None =>
        let available_sources := sorted (RC5_SOURCES_items.*1) in
        Raise (ValueError (InvalidSource source available_sources))
    | Some rc5_data =>
        d ← bytes_of_ints [rc5_data.1; rc5_data.2];
        ArcamCommand_new zone RC5_SIMULATE d
    end.

Definition get_software_version (zone : Z) : result ArcamCommand :=
  if negb (zone_ok zone) then Raise (ValueError (InvalidZone zone))
  else d ← bytes_of_ints [STATUS_REQUEST];
       ArcamCommand_new zone SOFTWARE_VERSION d.

Definition simulate_rc5 (rc5_data1 rc5_data2 zone : Z) : result ArcamCommand :=
  if negb (zone_ok zone) then Raise (ValueError (InvalidZone zone))
  else if negb ((0 <=? rc5_data1) && (rc5_data1 <=? 255)) then
    Raise (ValueError (InvalidRC5Data1 rc5_data1))
  else if negb ((0 <=? rc5_data2) && (rc5_data2 <=? 255)) then
    Raise (ValueError (InvalidRC5Data2 rc5_data2))
  else d ← bytes_of_ints [rc5_data1; rc5_data2];
       ArcamCommand_new zone RC5_SIMULATE d.

Definition get_volume (zone : Z) : result ArcamCommand :=
  if negb (zone_ok zone) then Raise (ValueError (InvalidZone zone))
  else d ← bytes_of_ints [STATUS_REQUEST]; ArcamCommand_new zone VOLUME d.

Definition get_mute_status (zone : Z) : result ArcamCommand :=
  if negb (zone_ok zone) then Raise (ValueError (InvalidZone zone))
  else d ← bytes_of_ints [STATUS_REQUEST]; ArcamCommand_new zone MUTE d.

Definition get_source (zone : Z) : result ArcamCommand :=
  if negb (zone_ok zone) then Raise (ValueError (InvalidZone zone))
  else d ← bytes_of_ints [STATUS_REQUEST]; ArcamCommand_new zone SOURCE d.

End ArcamCommands.

Definition get_source_name (source_code : Z) : option string :=
  SOURCE_CODES !! source_code.

(** The payload decoders: [None] is Python's [None] ("no value"). *)
Definition decode_volume_response (data : bytes) : result (option Z) :=
  if negb (len data =? 1) then mret None
  else v ← py_index data 0; mret (Some v).

Definition decode_power_response (data : bytes) : result (option bool) :=
  if negb (len data =? 1) then mret None
  else v ← py_index data 0; mret (Some (v =? 0x01)).

Definition decode_mute_response (data : bytes) : result (option bool) :=
  if negb (len data =? 1) then mret None
  else v ← py_index data 0; mret (Some (v =? 0x01)).

Definition decode_source_response (data : bytes) : result (option string) :=
  if negb (len data =? 1) then mret None
  else source_code ← py_index data 0; mret (get_source_name source_code).

(** ** connection.py *)

Definition RECONNECT_DELAY_BASE : Z := 1.
Definition MAX_RECONNECT_ATTEMPTS : Z := 5.

(** What the peer does next on the stream, in order: deliver a chunk of
    bytes, close its side, stay silent until the pending [wait_for] expires,
    or reset the connection. *)
Inductive event :=
| Arrive (bs : bytes)
| Eof
| Stall
| Reset.

(** [asyncio.StreamReader]: the bytes buffered so far, the end-of-file flag,
    and the events still to come. *)
Record StreamReader := mkReader {
  buffer : bytes;
  eof : bool;
  incoming : list event
}.

(** [asyncio.StreamWriter]: [broken] makes [drain()] raise. *)
Record StreamWriter := mkWriter {
  is_closing : bool;
  written : bytes;
  broken : bool
}.

Inductive connect_outcome :=
| Established (r : StreamReader) (w : StreamWriter)
| TimedOut
| Refused.

Inductive task := HandleConnectionLost | ReconnectWithBackoff | BroadcastListener.
Inductive task_status := Running | Done.

(** The fields of [ArcamConnection], followed by the environment the
    methods act on: the outcomes of the coming [open_connection] calls, the
    delays slept, the log, the tasks created and the responses handed to
    the broadcast callback. The callback returns the exception it raises,
    if any. *)
Record Session := mkSession {
  _reader : option StreamReader;
  _writer : option StreamWriter;
  _connected : bool;
  _broadcast_callback : option (ArcamResponse -> option exn);
  _broadcast_task : option task_status;
  _reconnect_attempts : Z;
  _reconnect_task : option task_status;
  network : list connect_outcome;
  slept : list Z;
  log : list log_record;
  created_tasks : list task;
  delivered : list ArcamResponse
}.

Definition set_reader (r : option StreamReader) (s : Session) : Session :=
  mkSession r (_writer s) (_connected s) (_broadcast_callback s)
    (_broadcast_task s) (_reconnect_attempts s) (_reconnect_task s)
    (network s) (slept s) (log s) (created_tasks s) (delivered s).
Definition set_writer (w : option StreamWriter) (s : Session) : Session :=
  mkSession (_reader s) w (_connected s) (_broadcast_callback s)
    (_broadcast_task s) (_reconnect_attempts s) (_reconnect_task s)
    (network s) (slept s) (log s) (created_tasks s) (delivered s).
Definition set_connected (b : bool) (s : Session) : Session :=
  mkSession (_reader s) (_writer s) b (_broadcast_callback s)
    (_broadcast_task s) (_reconnect_attempts s) (_reconnect_task s)
    (network s) (slept s) (log s) (created_tasks s) (delivered s).
Definition set_broadcast_task (t : option task_status) (s : Session) : Session :=
  mkSession (_reader s) (_writer s) (_connected s) (_broadcast_callback s)
    t (_reconnect_attempts s) (_reconnect_task s)
    (network s) (slept s) (log s) (created_tasks s) (delivered s).
Definition set_reconnect_attempts (n : Z) (s : Session) : Session :=
  mkSession (_reader s) (_writer s) (_connected s) (_broadcast_callback s)
    (_broadcast_task s) n (_reconnect_task s)
    (network s) (slept s) (log s) (created_tasks s) (delivered s).
Definition set_reconnect_task (t : option task_status) (s : Session) : Session :=
  mkSession (_reader s) (_writer s) (_connected s) (_broadcast_callback s)
    (_broadcast_task s) (_reconnect_attempts s) t
    (network s) (slept s) (log s) (created_tasks s) (delivered s).
Definition set_network (n : list connect_outcome) (s : Session) : Session :=
  mkSession (_reader s) (_writer s) (_connected s) (_broadcast_callback s)
    (_broadcast_task s) (_reconnect_attempts s) (_reconnect_task s)
    n (slept s) (log s) (created_tasks s) (delivered s).
Definition sleep (delay : Z) (s : Session) : Session :=
  mkSession (_reader s) (_writer s) (_connected s) (_broadcast_callback s)
    (_broadcast_task s) (_reconnect_attempts s) (_reconnect_task s)
    (network s) (slept s ++ [delay]) (log s) (created_tasks s) (delivered s).
Definition add_log (r : log_record) (s : Session) : Session :=
  mkSession (_reader s) (_writer s) (_connected s) (_broadcast_callback s)
    (_broadcast_task s) (_reconnect_attempts s) (_reconnect_task s)
    (network s) (slept s) (log s ++ [r]) (created_tasks s) (delivered s).
Definition create_task (t : task) (s : Session) : Session :=
  mkSession (_reader s) (_writer s) (_connected s) (_broadcast_callback s)
    (_broadcast_task s) (_reconnect_attempts s) (_reconnect_task s)
    (network s) (slept s) (log s) (created_tasks s ++ [t]) (delivered s).
Definition deliver (r : ArcamResponse) (s : Session) : Session :=
  mkSession (_reader s) (_writer s) (_connected s) (_broadcast_callback s)
    (_broadcast_task s) (_reconnect_attempts s) (_reconnect_task s)
    (network s) (slept s) (log s) (created_tasks s) (delivered s ++ [r]).

(** Methods run in a state-and-exception monad over the session: an
    exception leaves the mutations made before it in place. *)
Definition M (A : Type) : Type := Session -> result A * Session.

#[global] Instance M_ret : MRet M := fun A a s => (Ok a, s).
#[global] Instance M_bind : MBind M := fun A B f m s =>
  match m s with
  | (Ok a, s') => f a s'
  | (Raise e, s') => (Raise e, s')
  end.

Definition raise {A} (e : exn) : M A := fun s => (Raise e, s).
Definition lift {A} (r : result A) : M A := fun s => (r, s).
Definition modify (f : Session -> Session) : M unit := fun s => (Ok tt, f s).
Definition logging (lv : level) (t : log_text) : M unit := modify (add_log (lv, t)).

Definition is_connected (s : Session) : bool :=
  _connected s &&
  match _writer s with
  | Some w => negb (is_closing w)
  | None => false
  end.

Definition connect : M unit := fun s =>
  if is_connected s then (Ok tt, s)
  else
    let s := add_log (DEBUG, ConnectingTo) s in
    match network s with
    | Established r w :: rest =>
        let s := set_network rest s in
        let s := set_writer (Some w) (set_reader (Some r) s) in
        let s := set_connected true s in
        let s := set_reconnect_attempts 0 s in
        (Ok tt, add_log (INFO, ConnectedTo) s)
    | TimedOut :: rest =>
        (Raise (ArcamConnectionError ConnectionTimeoutTo), set_network rest s)
    | Refused :: rest =>
        (Raise (ArcamConnectionError ConnectionFailedTo), set_network rest s)
    | [] => (Raise (ArcamConnectionError ConnectionTimeoutTo), s)
    end.

(** Waiting for data on an empty buffer: the next event decides. An empty
    chunk wakes nobody. When no event is left nothing ever arrives and the
    enclosing [wait_for] expires. *)
Fixpoint await_data (evs : list event) : result (bytes * bool) * list event :=
  match evs with
  | [] => (Raise TimeoutError, [])
  | Arrive [] :: evs' => await_data evs'
  | Arrive bs :: evs' => (Ok (bs, false), evs')
  | Eof :: evs' => (Ok ([], true), evs')
  | Stall :: evs' => (Raise TimeoutError, evs')
  | Reset :: evs' => (Raise OSError, evs')
  end.

Definition at_eof (r : StreamReader) : bool :=
  eof r && match buffer r with [] => true | _ => false end.

(** [reader.read(n)] for [n >= 0] (the only calls made): at most [n] bytes,
    fewer when fewer are buffered, none at end of file. *)
Definition read (n : Z) (r : StreamReader) : result bytes * StreamReader :=
  if n =? 0 then (Ok [], r)
  else
    match buffer r, eof r with
    | [], false =>
        match await_data (incoming r) with
        | (Ok (bs, e), evs) =>
            (Ok (take (Z.to_nat n) bs), mkReader (drop (Z.to_nat n) bs) e evs)
        | (Raise e, evs) => (Raise e, mkReader [] false evs)
        end
    | buf, e =>
        (Ok (take (Z.to_nat n) buf),
         mkReader (drop (Z.to_nat n) buf) e (incoming r))
    end.

(** [self._reader.read(n)] inside a method. *)
Definition reader_read (n : Z) : M bytes := fun s =>
  match _reader s with
  | None => (Raise AttributeError, s)
  | Some r => let '(res, r') := read n r in (res, set_reader (Some r') s)
  end.

Definition _read_response : M bytes := fun s =>
  match _reader s with
  | None => (Raise (ArcamConnectionError NoReaderAvailable), s)
  | Some _ =>
      (header ← reader_read 5;
       if len header <? 5 then
         raise (ArcamProtocolError (IncompleteHeader (len header)))
       else
         data_length ← lift (py_index header 4);
         let remaining := data_length + 1 in
         if remaining >? 0 then
           data_and_end ← reader_read remaining;
           if len data_and_end <? remaining then
             raise (ArcamProtocolError
                      (IncompleteResponse remaining (len data_and_end)))
           else mret (header ++ data_and_end)
         else
           end_byte ← reader_read 1;
           if len end_byte <? 1 then raise (ArcamProtocolError MissingEndByte)
           else mret (header ++ end_byte)) s
  end.

Definition writer_write (bs : bytes) : M unit := fun s =>
  match _writer s with
  | None => (Raise AttributeError, s)
  | Some w =>
      (Ok tt, set_writer (Some (mkWriter (is_closing w) (written w ++ bs) (broken w))) s)
  end.

Definition writer_drain : M unit := fun s =>
  match _writer s with
  | None => (Raise AttributeError, s)
  | Some w => if broken w then (Raise OSError, s) else (Ok tt, s)
  end.

(** The [try] block of [send_command]. *)
Definition send_command_body (command : ArcamCommand) : M ArcamResponse :=
  command_bytes ← lift (encode_command command);
  logging DEBUG (SendingCommand command);;
  writer_write command_bytes;;
  writer_drain;;
  response_data ← _read_response;
  response ← lift (decode_response response_data);
  let '(valid, records) := validate_response response (command_code command) in
  modify (fun s => foldl (fun s r => add_log r s) s records);;
  (if negb valid then logging WARNING ResponseCommandCodeMismatch else mret tt);;
  logging DEBUG (ReceivedResponse response);;
  mret response.

(** [send_command]; the lock only orders whole calls and is not modelled. *)
Definition send_command (command : ArcamCommand) : M ArcamResponse := fun s =>
  if negb (is_connected s) then (Raise (ArcamConnectionError NotConnected), s)
  else
    match send_command_body command s with
    | (Raise TimeoutError, s') =>
        let s' := add_log (ERROR, CommandTimeoutAfter) s' in
        let s' := create_task HandleConnectionLost s' in
        (Raise (ArcamTimeoutError CommandTimeout), s')
    | (Raise OSError, s') =>
        let s' := add_log (ERROR, ConnectionErrorDuring OSError) s' in
        let s' := create_task HandleConnectionLost s' in
        (Raise (ArcamConnectionError ConnectionErrorDuringCommand), s')
    | other => other
    end.

(** Outcome of one pass through the body of a [while] loop. *)
Inductive flow := Continue | Break.

(** [if self._broadcast_callback: await self._broadcast_callback(response)] *)
Definition invoke_callback (response : ArcamResponse) : M unit := fun s =>
  match _broadcast_callback s with
  | Some callback =>
      match callback response with
      | None => (Ok tt, deliver response s)
      | Some e => (Raise e, deliver response s)
      end
  | None => (Ok tt, s)
  end.

(** The inner [try] block of [_broadcast_listener]. *)
Definition listener_try : M flow := fun s =>
  match _reader s with
  | None => (Raise AttributeError, s)
  | Some r =>
      if at_eof r then (Ok Break, s)
      else
        (response_data ← _read_response;
         response ← lift (decode_response response_data);
         logging DEBUG (ReceivedBroadcast response);;
         invoke_callback response;;
         mret Continue) s
  end.

(** One iteration of the listener's loop, with its two handlers: a timeout
    continues, any other exception is logged and leaves the loop. *)
Definition listener_iteration (s : Session) : flow * Session :=
  match listener_try s with
  | (Ok f, s') => (f, s')
  | (Raise TimeoutError, s') => (Continue, s')
  | (Raise err, s') => (Break, add_log (DEBUG, BroadcastListenerError err) s')
  end.

(** [while self.is_connected: ...]; [None] when the loop is still running
    after [fuel] iterations. *)
Fixpoint listener_loop (fuel : nat) (s : Session) : option Session :=
  match fuel with
  | O => None
  | S fuel' =>
      if is_connected s then
        match listener_iteration s with
        | (Continue, s') => listener_loop fuel' s'
        | (Break, s') => Some s'
        end
      else Some s
  end.

(** [_broadcast_listener]. The inner handlers catch every exception of the
    body, so the outer [except] clause is never entered. *)
Definition _broadcast_listener (fuel : nat) (s : Session) : option Session :=
  match _reader s with
  | None => Some s
  | Some _ =>
      add_log (DEBUG, BroadcastListenerStopped) <$> listener_loop fuel s
  end.

Definition _handle_connection_lost : M unit := fun s =>
  if negb (_connected s) then (Ok tt, s)
  else
    let s := add_log (WARNING, ConnectionLost) s in
    let s := set_connected false s in
    match _reconnect_task s with
    | Some Running => (Ok tt, s)
    | _ =>
        (Ok tt, create_task ReconnectWithBackoff
                  (set_reconnect_task (Some Running) s))
    end.

(** The loop of [_reconnect_with_backoff]; [None] when it is still running
    after [fuel] iterations. The delay is [1.0 * 2 ** (attempts - 1)], a
    float that is an exact integer for the attempt numbers 1 and above,
    which are the only ones the loop computes it for when it starts from a
    non-negative counter. *)
Fixpoint reconnect_loop (fuel : nat) (s : Session) : option (result unit * Session) :=
  if _reconnect_attempts s <? MAX_RECONNECT_ATTEMPTS then
    match fuel with
    | O => None
    | S fuel' =>
        let s := set_reconnect_attempts (_reconnect_attempts s + 1) s in
        let delay := RECONNECT_DELAY_BASE * 2 ^ (_reconnect_attempts s - 1) in
        let s := add_log (INFO, ReconnectionAttempt (_reconnect_attempts s)
                                  MAX_RECONNECT_ATTEMPTS delay) s in
        let s := sleep delay s in
        match connect s with
        | (Ok _, s) =>
            let s :=
              match _broadcast_callback s with
              | Some _ =>
                  create_task BroadcastListener
                    (set_broadcast_task (Some Running) s)
              | None => s
              end in
            Some (Ok tt, add_log (INFO, ReconnectionSuccessful) s)
        | (Raise (ArcamConnectionError m), s) =>
            reconnect_loop fuel'
              (add_log (WARNING, ReconnectionAttemptFailed
                                   (_reconnect_attempts s)
                                   (ArcamConnectionError m)) s)
        | (Raise e, s) => Some (Raise e, s)
        end
    end
  else Some (Ok tt, add_log (ERROR, MaxReconnectionAttemptsReached) s).

(** [_reconnect_with_backoff]: every pass that does not return raises the
    counter by one, so the distance to the maximum bounds the passes. *)
Definition _reconnect_with_backoff (s : Session) : option (result unit * Session) :=
  reconnect_loop (Z.to_nat (MAX_RECONNECT_ATTEMPTS - _reconnect_attempts s)) s.

(** ** commands.py: the source tables and the version decoder *)

(** The items of the [SOURCE_CODES] literal, in the order written. *)
Definition SOURCE_CODES_items : list (Z * string) :=
  [ (0x00, "CD"); (0x01, "BD"); (0x02, "AV"); (0x03, "STB"); (0x04, "SAT");
    (0x05, "PVR"); (0x06, "VCR"); (0x07, "AUX"); (0x08, "GAME");
    (0x09, "NET"); (0x0A, "FM"); (0x0B, "DAB"); (0x0C, "BT"); (0x0D, "USB");
    (0x0E, "UHD") ]%string.

(** [{v: k for k, v in SOURCE_CODES.items()}]: the items are inserted in
    order, a later one replacing an earlier one with the same key. *)
Definition SOURCE_NAME_TO_CODE : gmap string Z :=
  foldl (fun (m : gmap string Z) (kv : Z * string) => <[kv.2 := kv.1]> m)
    ∅ SOURCE_CODES_items.

Definition get_source_code (source_name : string) : option Z :=
  SOURCE_NAME_TO_CODE !! upper source_name.

Definition get_available_sources : list string :=
  sorted (RC5_SOURCES_items.*1).

Definition is_valid_source (source_name : string) : bool :=
  match RC5_SOURCES !! upper source_name with
  | Some _ => true
  | None => false
  end.

(** [data.decode('ascii')]: [None] stands for [UnicodeDecodeError], raised
    when a byte is 0x80 or above. *)
Definition decode_ascii (data : bytes) : option string :=
  if forallb (fun b => byte_val b <? 128) data
  then Some (string_of_list_byte data)
  else None.

(** [s.rstrip('\x00')] *)
Fixpoint rstrip_nul (s : string) : string :=
  match s with
  | EmptyString => EmptyString
  | String c s' =>
      match rstrip_nul s' with
      | EmptyString =>
          if Ascii.eqb c Ascii.zero then EmptyString else String c EmptyString
      | r => String c r
      end
  end.

Definition decode_version_response (data : bytes) : result (option string) :=
  if negb (len data =? 12) then mret None
  else
    match decode_ascii data with
    | Some text => mret (Some (rstrip_nul text))
    | None => mret None
    end.

(** ** connection.py: the device information *)

(** The dictionary [get_device_info] returns; [error] holds the exception
    whose text the "error" key carries, when that key is present. *)
Record DeviceInfo := mkDeviceInfo {
  info_host : string;
  info_port : Z;
  info_version : string;
  info_connected : bool;
  info_error : option exn
}.

(** [version or "Unknown"]: [None] and the empty string are both falsy. *)
Definition or_unknown (version : option string) : string :=
  match version with
  | None | Some EmptyString => "Unknown"
  | Some v => v
  end.

(** [self.is_connected] read inside a method. *)
Definition read_is_connected : M bool := fun s => (Ok (is_connected s), s).

(** The [try] block of [get_device_info]; host and port are the two fields
    of the connection that the session record does not carry. *)
Definition get_device_info_try (host : string) (port : Z) : M DeviceInfo :=
  version_command ← lift (ArcamCommands.get_software_version 1);
  version_response ← send_command version_command;
  version ← (if is_success version_response
             then lift (decode_version_response (r_data version_response))
             else mret None);
  connected ← read_is_connected;
  mret (mkDeviceInfo host port (or_unknown version) connected None).

(** [get_device_info]: every exception of the block ends in the placeholder
    dictionary. The error record the handler writes to the log has no
    influence on the result and is left out. *)
Definition get_device_info (host : string) (port : Z) : M DeviceInfo := fun s =>
  match get_device_info_try host port s with
  | (Ok info, s') => (Ok info, s')
  | (Raise err, s') =>
      (Ok (mkDeviceInfo host port "Unknown" (is_connected s') (Some err)), s')
  end.

(** ** coordinator.py: the state updated from broadcasts *)

(** The values the coordinator's data dictionary holds. *)
Inductive value :=
| VNone
| VBool (b : bool)
| VInt (n : Z)
| VStr (s : string).

(** Python's [==] on these values; a [bool] compares as the integer 0 or 1. *)
Definition value_eqb (a b : value) : bool :=
  match a, b with
  | VNone, VNone => true
  | VStr s, VStr t => String.eqb s t
  | VBool x, VBool y => Bool.eqb x y
  | VInt m, VInt n => m =? n
  | VBool x, VInt n | VInt n, VBool x => n =? (if x then 1 else 0)
  | _, _ => false
  end.

(** [d1 == d2] on dictionaries: the same keys, with equal values. *)
Definition dict_eqb (d1 d2 : gmap string value) : bool :=
  bool_decide (dom d1 = dom d2) &&
  forallb (fun kv : string * value =>
             match d2 !! kv.1 with
             | Some v => value_eqb kv.2 v
             | None => false
             end) (map_to_list d1).

(** [_handle_broadcast_message], as a function of [self.data] and the
    response: [Some d] when it calls [async_set_updated_data(d)] (and then
    enables fast updates), [None] when it returns without doing so. Its
    debug records go to the coordinator's own logger and are left out. *)
Definition _handle_broadcast_message
    (data : option (gmap string value)) (response : ArcamResponse)
  : result (option (gmap string value)) :=
  if negb (is_success response) then mret None
  else
    match data with
    | None => mret None
    | Some data =>
        updated_data ←
          (if r_command_code response =? 0x00 then
             power_state ← decode_power_response (r_data response);
             mret (match power_state with
                   | Some b => <["power"%string := VBool b]> data
                   | None => data
                   end)
           else if r_command_code response =? 0x0D then
             volume_level ← decode_volume_response (r_data response);
             mret (match volume_level with
                   | Some v => <["volume"%string := VInt v]> data
                   | None => data
                   end)
           else if r_command_code response =? 0x0E then
             mute_state ← decode_mute_response (r_data response);
             mret (match mute_state with
                   | Some b => <["mute"%string := VBool b]> data
                   | None => data
                   end)
           else if r_command_code response =? 0x1D then
             source_name ← decode_source_response (r_data response);
             mret (match source_name with
                   | Some n => <["source"%string := VStr n]> data
                   | None => data
                   end)
           else mret data);
        if negb (dict_eqb updated_data data) then mret (Some updated_data)
        else mret None
    end.

(** ** const.py and media_player.py: source names and volume *)

(** [SOURCE_MAPPING], in the order written: the loop of
    [async_select_source] walks it in that order. *)
Definition SOURCE_MAPPING : list (string * string) :=
  [ ("CD", "CD Player"); ("BD", "Blu-ray Player"); ("AV", "AV Input");
    ("STB", "Set-Top Box"); ("SAT", "Satellite"); ("PVR", "PVR");
    ("VCR", "VCR"); ("AUX", "Auxiliary"); ("GAME", "Game Console");
    ("NET", "Network"); ("FM", "FM Radio"); ("DAB", "DAB Radio");
    ("BT", "Bluetooth"); ("USB", "USB"); ("UHD", "UHD Player") ]%string.

Definition AVAILABLE_SOURCES : list string :=
  [ "CD"; "BD"; "UHD"; "STB"; "SAT"; "PVR"; "GAME"; "AV"; "AUX"; "NET"; "BT";
    "USB"; "FM"; "DAB"; "VCR" ]%string.

Definition VOLUME_MIN : Z := 0.
Definition VOLUME_MAX : Z := 99.

(** [SOURCE_MAPPING.get(key, default)] *)
Fixpoint mapping_get_in (items : list (string * string)) (key default : string)
  : string :=
  match items with
  | [] => default
  | (k, v) :: items' =>
      if String.eqb k key then v else mapping_get_in items' key default
  end.

Definition mapping_get (key default : string) : string :=
  mapping_get_in SOURCE_MAPPING key default.

(** The [source_list] property. *)
Definition source_list : list string :=
  (fun src => mapping_get src src) <$> AVAILABLE_SOURCES.

(** The loop of [async_select_source]: the code of the first entry whose
    friendly name is [source]. *)
Fixpoint code_of_friendly (items : list (string * string)) (source : string)
  : option string :=
  match items with
  | [] => None
  | (code, friendly_name) :: items' =>
      if String.eqb friendly_name source then Some code
      else code_of_friendly items' source
  end.

(** The source code [async_select_source] passes to [select_source], or
    [None] when it logs "Unknown source" and returns. *)
Definition resolve_source (source : string) : option string :=
  match code_of_friendly SOURCE_MAPPING source with
  | Some source_code => Some source_code
  | None =>
      if bool_decide (source ∈ AVAILABLE_SOURCES) then Some source else None
  end.

(** The clamping step of [async_set_volume_level], applied to the integer
    that [int(volume * VOLUME_MAX)] gives. *)
Definition clamp_volume (device_volume : Z) : Z :=
  Z.max VOLUME_MIN (Z.min VOLUME_MAX device_volume).

(** ** Notions used to state the properties *)

(** What indexing returns for the element found, or not found, at a position. *)
Definition indexed (o : option byte) : result Z :=
  match o with
  | Some b => Ok (byte_val b)
  | None => Raise IndexError
  end.

(** A command frame reshaped as a response frame: a status byte inserted
    after the operation-code byte. *)
Definition as_response_frame (status : byte) (frame : bytes) : bytes :=
  take 3 frame ++ status :: drop 3 frame.

(** The four framing defects of a received byte sequence. *)
Definition malformed (bs : bytes) : Prop :=
  len bs < 6 \/
  byte_val <$> bs !! 0%nat <> Some START_BYTE \/
  byte_val <$> last bs <> Some END_BYTE \/
  byte_val <$> bs !! 4%nat <> Some (len bs - 6).

(** The part of [send_command]'s [try] block up to and including the read
    of the reply. *)
Definition send_and_read (command : ArcamCommand) : M bytes :=
  command_bytes ← lift (encode_command command);
  logging DEBUG (SendingCommand command);;
  writer_write command_bytes;;
  writer_drain;;
  _read_response.

(** The delay before reconnection attempt number [attempt]. *)
Definition backoff_delay (attempt : Z) : Z :=
  RECONNECT_DELAY_BASE * 2 ^ (attempt - 1).

(** The attempt numbers the log reports as failed, in order. *)
Definition failed_attempts (l : list log_record) : list Z :=
  omap (fun r : log_record =>
          match r with
          | (WARNING, ReconnectionAttemptFailed n _) => Some n
          | _ => None
          end) l.

(** Sessions used as concrete instances. [idle_callback] accepts every
    response; [live_session evs] is connected, with a reader that will see
    the events [evs]. *)
Definition idle_callback (r : ArcamResponse) : option exn := None.

Definition live_session (evs : list event) : Session :=
  mkSession (Some (mkReader [] false evs)) (Some (mkWriter false [] false))
    true (Some idle_callback) (Some Running) 0 None [] [] [] [] [].

(** A frame whose last byte is not END, and a well-formed volume broadcast. *)
Definition garbled_frame : bytes := [x21; x01; x0d; x00; x01; x32; xff].
Definition volume_frame : bytes := [x21; x01; x0d; x00; x01; x32; x0d].

Definition garbled_session : Session :=
  live_session [Arrive garbled_frame; Arrive volume_frame].

(** A session that lost its connection (the stream of the old connection is
    at end of file, its writer broken), facing the given outcomes of the
    coming connection attempts. *)
Definition lost_session (net : list connect_outcome) : Session :=
  mkSession (Some (mkReader [] true [])) (Some (mkWriter false [] true))
    false None None 0 (Some Running) net [] [] [] [].

(** Reading touches nothing but the reader. *)
Definition reader_only (s s' : Session) : Prop :=
  exists ro, s' = set_reader ro s.

(** What a run of the backoff loop from [s] to [s'] with [n] connection
    attempts looks like: the attempts numbered [a+1 .. a+n] (with [a] the
    counter of [s]) each slept their delay and consumed one outcome; either
    the last one connected and the counter is back at zero, all earlier ones
    being logged as failed, or all [n] failed, the counter stands at the
    maximum and the loop gave up. *)
Definition backoff_run (s s' : Session) (n : nat) : Prop :=
  let a := _reconnect_attempts s in
  Z.of_nat n <= MAX_RECONNECT_ATTEMPTS - a /\
  slept s' = slept s ++ (backoff_delay <$> seqZ (a + 1) (Z.of_nat n)) /\
  network s' = drop n (network s) /\
  ((_connected s' = true /\
    _reconnect_attempts s' = 0 /\
    (1 <= n)%nat /\
    failed_attempts (log s') =
      failed_attempts (log s) ++ seqZ (a + 1) (Z.of_nat n - 1) /\
    last (log s') = Some (INFO, ReconnectionSuccessful))
   \/
   (_connected s' = false /\
    _reconnect_attempts s' = MAX_RECONNECT_ATTEMPTS /\
    Z.of_nat n = MAX_RECONNECT_ATTEMPTS - a /\
    failed_attempts (log s') =
      failed_attempts (log s) ++ seqZ (a + 1) (Z.of_nat n) /\
    last (log s') = Some (ERROR, MaxReconnectionAttemptsReached))).

(** A string of [k] NUL characters. *)
Fixpoint nul_string (k : nat) : string :=
  match k with
  | O => EmptyString
  | S k' => String Ascii.zero (nul_string k')
  end.

(** The last character of a string, if any. *)
Fixpoint last_char (s : string) : option ascii :=
  match s with
  | EmptyString => None
  | String c EmptyString => Some c
  | String _ s' => last_char s'
  end.

(** What a method may change besides the streams and the log: nothing.
    [io_only s s'] says that [s'] differs from [s] at most in the reader,
    the writer and the log. *)
Definition io_only (s s' : Session) : Prop :=
  _connected s' = _connected s /\
  _broadcast_callback s' = _broadcast_callback s /\
  _broadcast_task s' = _broadcast_task s /\
  _reconnect_attempts s' = _reconnect_attempts s /\
  _reconnect_task s' = _reconnect_task s /\
  network s' = network s /\
  slept s' = slept s /\
  created_tasks s' = created_tasks s /\
  delivered s' = delivered s.

(** The bytes written to the session's writer so far. *)
Definition wire (s : Session) : bytes :=
  match _writer s with
  | Some w => written w
  | None => []
  end.

(** The exceptions the [try] block of [send_command] can end in: anything
    but the two it is translated to on the way out, and "not connected". *)
Definition body_exn (e : exn) : bool :=
  match e with
  | ArcamTimeoutError _ => false
  | ArcamConnectionError NoReaderAvailable => true
  | ArcamConnectionError _ => false
  | _ => true
  end.

(** [control_same s s']: [s'] differs from [s] at most in the reader, the
    log and the responses delivered; the writer, the connection flag, the
    reconnection state and the tasks are the same. *)
Definition control_same (s s' : Session) : Prop :=
  _writer s' = _writer s /\
  _connected s' = _connected s /\
  _broadcast_callback s' = _broadcast_callback s /\
  _broadcast_task s' = _broadcast_task s /\
  _reconnect_attempts s' = _reconnect_attempts s /\
  _reconnect_task s' = _reconnect_task s /\
  network s' = network s /\
  slept s' = slept s /\
  created_tasks s' = created_tasks s.

(** * Properties *)

(** Case analysis on the integer comparisons of the goal. *)
Ltac zcases :=
  repeat match goal with
  | |- context [Z.gtb ?a ?b] => rewrite (Z.gtb_ltb a b)
  | |- context [Z.ltb ?a ?b] => destruct (Z.ltb_spec a b)
  | |- context [Z.leb ?a ?b] => destruct (Z.leb_spec a b)
  | |- context [Z.eqb ?a ?b] => destruct (Z.eqb_spec a b)
  end; simpl; try lia; try discriminate.

(** ** Bytes and indexing *)

Lemma byte_val_range (b : byte) : 0 <= byte_val b < 256.
Proof.
  unfold byte_val. pose proof (Byte.to_N_bounded b) as H.
  apply N2Z.inj_le in H. simpl in H. lia.
Qed.

Lemma byte_val_inj (a b : byte) : byte_val a = byte_val b -> a = b.
Proof.
  unfold byte_val. intros H. apply N2Z.inj in H.
  pose proof (Byte.of_to_N a) as Ha. pose proof (Byte.of_to_N b) as Hb.
  rewrite H in Ha. congruence.
Qed.

Lemma byte_of_int_val (b : byte) : byte_of_int (byte_val b) = Ok b.
Proof.
  unfold byte_of_int. pose proof (byte_val_range b) as [H0 H1].
  apply Z.leb_le in H0. apply Z.ltb_lt in H1. rewrite H0, H1. simpl.
  unfold byte_val. rewrite N2Z.id, Byte.of_to_N. reflexivity.
Qed.

Lemma byte_of_int_in_range (v : Z) :
  0 <= v < 256 -> exists b, byte_of_int v = Ok b /\ byte_val b = v.
Proof.
  intros [H0 H1]. unfold byte_of_int.
  destruct (Byte.of_N (Z.to_N v)) as [b|] eqn:E.
  - exists b. apply Byte.to_of_N in E.
    rewrite (proj2 (Z.leb_le 0 v) H0), (proj2 (Z.ltb_lt v 256) H1). simpl.
    split; [reflexivity|]. unfold byte_val. rewrite E. lia.
  - apply Byte.of_N_None_iff in E. lia.
Qed.

Lemma byte_of_int_Ok (v : Z) (b : byte) : byte_of_int v = Ok b -> byte_val b = v.
Proof.
  unfold byte_of_int. destruct ((0 <=? v) && (v <? 256)) eqn:R; [|discriminate].
  apply andb_prop in R as [H0 H1].
  apply Z.leb_le in H0. apply Z.ltb_lt in H1.
  destruct (Byte.of_N (Z.to_N v)) as [b'|] eqn:E; [|discriminate].
  intros [= <-]. apply Byte.to_of_N in E. unfold byte_val. rewrite E. lia.
Qed.

Lemma py_index_in_range (data : bytes) (i : Z) :
  0 <= i < len data -> py_index data i = indexed (data !! Z.to_nat i).
Proof.
  intros [H0 H1]. unfold py_index. zcases. reflexivity.
Qed.

Lemma py_index_last (data : bytes) :
  data <> [] -> py_index data (-1) = indexed (last data).
Proof.
  intros Hne. unfold py_index. simpl.
  assert (0 < len data) as Hlen.
  { unfold len. destruct data; [congruence|]. simpl. lia. }
  zcases. rewrite last_lookup. unfold len.
  replace (Z.to_nat (-1 + Z.of_nat (length data))) with (pred (length data)) by lia.
  reflexivity.
Qed.

Lemma py_slice_payload (hdr payload tl : bytes) :
  len hdr = 5 ->
  py_slice (hdr ++ payload ++ tl) 5 (5 + len payload) = payload.
Proof.
  intros Hh. unfold py_slice, py_bound. unfold len in *.
  rewrite !length_app. zcases.
  replace (Z.to_nat (Z.min 5 _)) with (length hdr) by lia.
  rewrite drop_app_length.
  replace (Z.to_nat _) with (length payload) by lia.
  apply take_app_length.
Qed.

(** ** The frame codec *)

(** Decoding a well-shaped response frame yields its fields. *)
Lemma decode_response_frame (b1 b2 b3 b4 : byte) (payload : bytes) :
  byte_val b4 = len payload ->
  decode_response ("!"%byte :: b1 :: b2 :: b3 :: b4 :: payload ++ [x0d]) =
  Ok (mkArcamResponse (byte_val b1) (byte_val b2) (byte_val b3) payload).
Proof.
  intros Hlen.
  set (frame := _ :: _).
  assert (len frame = 6 + len payload) as Hf.
  { unfold frame, len. simpl. rewrite length_app. simpl. lia. }
  assert (0 <= len payload) as Hp by (unfold len; lia).
  assert (py_index frame 0 = Ok START_BYTE) as I0
    by (rewrite py_index_in_range by lia; reflexivity).
  assert (py_index frame 1 = Ok (byte_val b1)) as I1
    by (rewrite py_index_in_range by lia; reflexivity).
  assert (py_index frame 2 = Ok (byte_val b2)) as I2
    by (rewrite py_index_in_range by lia; reflexivity).
  assert (py_index frame 3 = Ok (byte_val b3)) as I3
    by (rewrite py_index_in_range by lia; reflexivity).
  assert (py_index frame 4 = Ok (len payload)) as I4
    by (rewrite py_index_in_range by lia; rewrite <- Hlen; reflexivity).
  assert (py_index frame (-1) = Ok END_BYTE) as IL.
  { rewrite py_index_last by discriminate.
    unfold frame. rewrite !app_comm_cons, last_snoc. reflexivity. }
  assert (py_slice frame 5 (5 + len payload) = payload) as SL
    by (apply (py_slice_payload ["!"%byte; b1; b2; b3; b4]); reflexivity).
  clearbody frame.
  unfold decode_response.
  rewrite I0, IL, I1, I2, I3, I4, Hf.
  unfold mbind, result_bind, mret, result_ret.
  rewrite !Z.eqb_refl. cbn [negb]. rewrite SL.
  zcases; [reflexivity|].
  destruct payload; [reflexivity|]. unfold len in *. cbn [length] in *. lia.
Qed.

(** Encoding a command whose fields are in range. *)
Lemma encode_command_valid (z cc : Z) (d : bytes) :
  0 <= z < 256 -> 0 <= cc < 256 -> len d <= 255 ->
  exists bz bc bl,
    byte_val bz = z /\ byte_val bc = cc /\ byte_val bl = len d /\
    encode_command (mkArcamCommand z cc d) =
    Ok ("!"%byte :: bz :: bc :: bl :: d ++ [x0d]).
Proof.
  intros Hz Hc Hd.
  assert (0 <= len d) as Hd0 by (unfold len; lia).
  destruct (byte_of_int_in_range z Hz) as (bz & Ez & Vz).
  destruct (byte_of_int_in_range cc Hc) as (bc & Ec & Vc).
  destruct (byte_of_int_in_range (len d)) as (bl & El & Vl); [lia|].
  exists bz, bc, bl. repeat split; try assumption.
  unfold encode_command. simpl.
  rewrite Ez, Ec, El. simpl.
  destruct d; reflexivity.
Qed.

Lemma ArcamCommand_new_Ok (z cc : Z) (d : bytes) (c : ArcamCommand) :
  ArcamCommand_new z cc d = Ok c ->
  (1 <= z <= 2) /\ (0 <= cc <= 255) /\ len d <= 255 /\ c = mkArcamCommand z cc d.
Proof.
  unfold ArcamCommand_new. zcases. intros [= <-].
  repeat split; lia || reflexivity.
Qed.

(** The closed form of [decode_response] on six bytes or more. *)
Lemma decode_response_long (b0 b1 b2 b3 b4 b5 l : byte) (rest : bytes) :
  let bs := b0 :: b1 :: b2 :: b3 :: b4 :: b5 :: rest in
  last bs = Some l ->
  decode_response bs =
  if negb (byte_val b0 =? START_BYTE) then
    Raise (ArcamProtocolError (InvalidStartByte (byte_val b0)))
  else if negb (byte_val l =? END_BYTE) then
    Raise (ArcamProtocolError (InvalidEndByte (byte_val l)))
  else if negb (len bs =? 6 + byte_val b4) then
    Raise (ArcamProtocolError (DataLengthMismatch (6 + byte_val b4) (len bs)))
  else
    Ok (mkArcamResponse (byte_val b1) (byte_val b2) (byte_val b3)
          (if byte_val b4 >? 0 then py_slice bs 5 (5 + byte_val b4) else [])).
Proof.
  intros bs Hl.
  assert (6 <= len bs) as Hlen by (unfold bs, len; cbn [length]; lia).
  assert (py_index bs 0 = Ok (byte_val b0)) as I0
    by (rewrite py_index_in_range by lia; reflexivity).
  assert (py_index bs 1 = Ok (byte_val b1)) as I1
    by (rewrite py_index_in_range by lia; reflexivity).
  assert (py_index bs 2 = Ok (byte_val b2)) as I2
    by (rewrite py_index_in_range by lia; reflexivity).
  assert (py_index bs 3 = Ok (byte_val b3)) as I3
    by (rewrite py_index_in_range by lia; reflexivity).
  assert (py_index bs 4 = Ok (byte_val b4)) as I4
    by (rewrite py_index_in_range by lia; reflexivity).
  assert (py_index bs (-1) = Ok (byte_val l)) as IL
    by (rewrite py_index_last by discriminate; rewrite Hl; reflexivity).
  clearbody bs. unfold decode_response.
  destruct (Z.ltb_spec (len bs) 6); [lia|].
  rewrite I0, IL, I1, I2, I3, I4.
  unfold mbind, result_bind, mret, result_ret.
  destruct (negb (byte_val b0 =? START_BYTE)); [reflexivity|].
  destruct (negb (byte_val l =? END_BYTE)); reflexivity.
Qed.

(** [decode_response] raises nothing but [ArcamProtocolError]. *)
Lemma decode_response_raises (bs : bytes) (e : exn) :
  decode_response bs = Raise e -> exists m, e = ArcamProtocolError m.
Proof.
  destruct bs as [|b0 [|b1 [|b2 [|b3 [|b4 [|b5 rest]]]]]];
    try (intros [= <-]; eexists; reflexivity).
  destruct (last (b0 :: b1 :: b2 :: b3 :: b4 :: b5 :: rest)) as [l|] eqn:Hl.
  - rewrite (decode_response_long _ _ _ _ _ _ l rest Hl).
    repeat (destruct (negb _); [intros [= <-]; eexists; reflexivity|]).
    discriminate.
  - apply last_None in Hl. discriminate.
Qed.

(** C4. For every byte sequence, [decode_response] raises a protocol error
    exactly when the sequence is shorter than 6 bytes, or does not begin
    with START, or does not end with END, or its LENGTH byte (index 4)
    differs from the length minus 6; otherwise it returns a response. It
    never raises anything else (no index fault), and makes no other check. *)
Theorem decode_response_validity (bs : bytes) :
  (malformed bs <-> exists m, decode_response bs = Raise (ArcamProtocolError m)) /\
  (~ malformed bs <-> exists r, decode_response bs = Ok r) /\
  match decode_response bs with
  | Ok r =>
      byte_val <$> bs !! 1%nat = Some (r_zone r) /\
      byte_val <$> bs !! 2%nat = Some (r_command_code r) /\
      byte_val <$> bs !! 3%nat = Some (answer_code r)
  | Raise e => exists m, e = ArcamProtocolError m
  end.
Proof.
  assert (len bs < 6 \/ 6 <= len bs) as [Hs|Hs] by lia.
  - assert (decode_response bs = Raise (ArcamProtocolError (ResponseTooShort (len bs)))) as E.
    { unfold decode_response. destruct (Z.ltb_spec (len bs) 6); [reflexivity|lia]. }
    rewrite E. unfold malformed. split; [|split].
    + split; [eauto|]. intros _. left. exact Hs.
    + split; [tauto|]. intros [r Hr]. discriminate.
    + eauto.
  - destruct bs as [|b0 [|b1 [|b2 [|b3 [|b4 [|b5 rest]]]]]];
      try (unfold len in Hs; cbn [length] in Hs; lia).
    destruct (last (b0 :: b1 :: b2 :: b3 :: b4 :: b5 :: rest)) as [l|] eqn:Hl;
      [|apply last_None in Hl; discriminate].
    rewrite (decode_response_long _ _ _ _ _ _ l rest Hl).
    unfold malformed. rewrite Hl. cbn [lookup list_lookup fmap option_fmap option_map].
    set (bs := b0 :: _) in *.
    destruct (Z.eqb_spec (byte_val b0) START_BYTE) as [E0|E0]; cbn [negb].
    2:{ match goal with |- (?P <-> _) /\ _ => assert P as Hbad by (right; left; congruence) end.
        split; [|split];
          [split; eauto | split; [tauto | intros [r Hr]; discriminate] | eauto]. }
    destruct (Z.eqb_spec (byte_val l) END_BYTE) as [E1|E1]; cbn [negb].
    2:{ match goal with |- (?P <-> _) /\ _ => assert P as Hbad by (right; right; left; congruence) end.
        split; [|split];
          [split; eauto | split; [tauto | intros [r Hr]; discriminate] | eauto]. }
    destruct (Z.eqb_spec (len bs) (6 + byte_val b4)) as [E2|E2]; cbn [negb].
    2:{ match goal with |- (?P <-> _) /\ _ => assert P as Hbad by (right; right; right; intros [= E]; lia) end.
        split; [|split];
          [split; eauto | split; [tauto | intros [r Hr]; discriminate] | eauto]. }
    assert (~ (len bs < 6 \/ Some (byte_val b0) <> Some START_BYTE \/
               Some (byte_val l) <> Some END_BYTE \/
               Some (byte_val b4) <> Some (len bs - 6))) as Hwf.
    { intros [H|[H|[H|H]]]; [lia|congruence|congruence|].
      apply H. f_equal. lia. }
    split; [|split].
    + split; [tauto|]. intros [m Hm]. discriminate.
    + split; eauto.
    + cbn. auto.
Qed.

(** C3. For every command the constructor accepts, encoding it, inserting a
    status byte after the operation code and decoding the result succeeds,
    and the response has the command's zone, operation code and payload. *)
Theorem framing_round_trip (z cc : Z) (d : bytes) (c : ArcamCommand) (status : byte) :
  ArcamCommand_new z cc d = Ok c ->
  exists frame r,
    encode_command c = Ok frame /\
    decode_response (as_response_frame status frame) = Ok r /\
    r_zone r = zone c /\
    r_command_code r = command_code c /\
    r_data r = data c /\
    answer_code r = byte_val status.
Proof.
  intros Hc. apply ArcamCommand_new_Ok in Hc as (Hz & Hcc & Hd & ->).
  destruct (encode_command_valid z cc d) as (bz & bc & bl & Vz & Vc & Vl & E);
    [lia..|].
  eexists. eexists. split; [exact E|].
  unfold as_response_frame. cbn [take drop app].
  rewrite (decode_response_frame bz bc status bl d Vl).
  cbn. rewrite Vz, Vc. auto.
Qed.

Lemma framing_round_trip_witness :
  ArcamCommand_new 1 VOLUME ["2"%byte] = Ok (mkArcamCommand 1 VOLUME ["2"%byte]) /\
  exists frame r,
    encode_command (mkArcamCommand 1 VOLUME ["2"%byte]) = Ok frame /\
    decode_response (as_response_frame x00 frame) = Ok r /\
    r_zone r = 1 /\ r_command_code r = VOLUME /\ r_data r = ["2"%byte] /\
    answer_code r = byte_val x00.
Proof.
  split; [reflexivity|].
  exact (framing_round_trip 1 VOLUME ["2"%byte]
           (mkArcamCommand 1 VOLUME ["2"%byte]) x00 eq_refl).
Defined.

(** C6. Constructing a command raises a protocol error exactly when the zone
    is outside 1..2, or the operation code outside 0..255, or the payload
    longer than 255 bytes; otherwise it returns the command holding the
    zone, operation code and payload as given. *)
Theorem command_construction (z cc : Z) (d : bytes) :
  ((exists m, ArcamCommand_new z cc d = Raise (ArcamProtocolError m)) <->
   (z < 1 \/ 2 < z \/ cc < 0 \/ 255 < cc \/ 255 < len d)) /\
  (ArcamCommand_new z cc d = Ok (mkArcamCommand z cc d) <->
   (1 <= z <= 2 /\ 0 <= cc <= 255 /\ len d <= 255)) /\
  match ArcamCommand_new z cc d with
  | Ok c => zone c = z /\ command_code c = cc /\ data c = d
  | Raise e => exists m, e = ArcamProtocolError m
  end.
Proof.
  assert ((1 <= z <= 2 /\ 0 <= cc <= 255 /\ len d <= 255) \/
          (z < 1 \/ 2 < z \/ cc < 0 \/ 255 < cc \/ 255 < len d)) as [Hin|Hout] by lia.
  - assert (ArcamCommand_new z cc d = Ok (mkArcamCommand z cc d)) as E.
    { unfold ArcamCommand_new. zcases. reflexivity. }
    rewrite E. split; [|split].
    + split; [intros [m [=]]|lia].
    + tauto.
    + cbn. auto.
  - assert (exists m, ArcamCommand_new z cc d = Raise (ArcamProtocolError m)) as [m E].
    { unfold ArcamCommand_new. zcases; eauto. }
    rewrite E. split; [|split].
    + split; eauto.
    + split; [discriminate|lia].
    + eauto.
Qed.

(** C8. The power-on command for zone 1 encodes as 21 01 00 01 01 0D. *)
Theorem power_on_zone1_bytes :
  ArcamCommands.power_on 1 = Ok (mkArcamCommand 1 POWER [x01]) /\
  encode_command (mkArcamCommand 1 POWER [x01]) =
  Ok [x21; x01; x00; x01; x01; x0d] /\
  byte_val x21 = START_BYTE /\ byte_val x0d = END_BYTE.
Proof. repeat split. Qed.

Lemma error_messages_lookup (a : Z) :
  error_messages !! a =
  if decide (a = ANSWER_ZONE_INVALID) then Some "Invalid zone specified"%string
  else if decide (a = ANSWER_COMMAND_NOT_RECOGNIZED) then Some "Command not recognized"%string
  else if decide (a = ANSWER_PARAMETER_NOT_RECOGNIZED) then Some "Parameter not recognized"%string
  else if decide (a = ANSWER_COMMAND_INVALID_AT_THIS_TIME) then Some "Command invalid at this time"%string
  else if decide (a = ANSWER_INVALID_DATA_LENGTH) then Some "Invalid data length"%string
  else None.
Proof.
  unfold error_messages. cbn [list_to_map foldr uncurry].
  rewrite !lookup_insert, lookup_empty. cbn [fst snd].
  unfold ANSWER_ZONE_INVALID, ANSWER_COMMAND_NOT_RECOGNIZED,
    ANSWER_PARAMETER_NOT_RECOGNIZED, ANSWER_COMMAND_INVALID_AT_THIS_TIME,
    ANSWER_INVALID_DATA_LENGTH.
  repeat case_decide; subst; congruence.
Qed.

(** C9. The frame 21 01 00 82 00 0D decodes to a response with status 0x82
    that is no success and whose reason is the invalid-zone message; a
    response is a success exactly when its status is 0, and a reason is
    resolved exactly for the five statuses 0x82..0x86. *)
Theorem status_reasons :
  decode_response [x21; x01; x00; x82; x00; x0d] =
    Ok (mkArcamResponse 1 0 0x82 []) /\
  is_success (mkArcamResponse 1 0 0x82 []) = false /\
  error_message (mkArcamResponse 1 0 0x82 []) = Some "Invalid zone specified"%string /\
  (forall r, is_success r = true <-> answer_code r = 0) /\
  (forall r, is_Some (error_message r) <->
             answer_code r = 0x82 \/ answer_code r = 0x83 \/
             answer_code r = 0x84 \/ answer_code r = 0x85 \/
             answer_code r = 0x86) /\
  (forall r, error_message r = None <->
             ~ (0x82 <= answer_code r <= 0x86)).
Proof.
  split; [reflexivity|]. split; [reflexivity|].
  split; [unfold error_message; rewrite error_messages_lookup; reflexivity|].
  split; [intros r; unfold is_success, ANSWER_OK; apply Z.eqb_eq|].
  split; intros r; unfold error_message; rewrite error_messages_lookup;
    unfold ANSWER_ZONE_INVALID, ANSWER_COMMAND_NOT_RECOGNIZED,
      ANSWER_PARAMETER_NOT_RECOGNIZED, ANSWER_COMMAND_INVALID_AT_THIS_TIME,
      ANSWER_INVALID_DATA_LENGTH;
    repeat case_decide; split; intros Hr;
    try (inversion Hr; discriminate); try discriminate;
    try lia; try (eexists; reflexivity); try tauto.
Qed.

(** ** The payload decoders *)

Lemma len_single_iff {A} (l : list A) : len l = 1 <-> exists x, l = [x].
Proof.
  unfold len. split.
  - destruct l as [|x [|y l]]; cbn [length]; intros H; try lia. eauto.
  - intros [x ->]. reflexivity.
Qed.

(** C2, as the claim states it, fails: the payload byte 0x02 is nonzero, yet
    both decoders answer [False]. *)
Lemma decode_power_nonzero_counterexample :
  byte_val x02 <> 0 /\
  decode_power_response [x02] = Ok (Some false) /\
  decode_mute_response [x02] = Ok (Some false).
Proof. repeat split. discriminate. Qed.

(** C2, amended. On a 1-byte payload both decoders return a boolean, which is
    true exactly when the byte is 0x01; on a payload of any other length
    both return no value. Neither ever raises. *)
Theorem decode_power_mute_spec (payload : bytes) :
  (forall b, decode_power_response [b] = Ok (Some (byte_val b =? 1)) /\
             (decode_power_response [b] = Ok (Some true) <-> b = x01)) /\
  (forall b, decode_mute_response [b] = Ok (Some (byte_val b =? 1)) /\
             (decode_mute_response [b] = Ok (Some true) <-> b = x01)) /\
  (decode_power_response payload = Ok None <-> len payload <> 1) /\
  (decode_mute_response payload = Ok None <-> len payload <> 1).
Proof.
  assert (forall b, Ok (Some (byte_val b =? 1)) = Ok (Some true) <-> b = x01) as Hone.
  { intros b. split.
    - intros [= H]. apply Z.eqb_eq in H. apply byte_val_inj. exact H.
    - intros ->. reflexivity. }
  split; [|split; [|split]].
  - intros b. split; [reflexivity|]. apply Hone.
  - intros b. split; [reflexivity|]. apply Hone.
  - unfold decode_power_response.
    destruct (Z.eqb_spec (len payload) 1) as [E|E]; cbn [negb].
    + apply len_single_iff in E as [b ->]. split; [discriminate|].
      intros H. exfalso. apply H. reflexivity.
    + split; [intros _; exact E|reflexivity].
  - unfold decode_mute_response.
    destruct (Z.eqb_spec (len payload) 1) as [E|E]; cbn [negb].
    + apply len_single_iff in E as [b ->]. split; [discriminate|].
      intros H. exfalso. apply H. reflexivity.
    + split; [intros _; exact E|reflexivity].
Qed.

(** ** The command catalogue *)

Lemma RC5_SOURCES_VCR : RC5_SOURCES !! "VCR"%string = Some (0x10, 0x63).
Proof. vm_compute. reflexivity. Qed.

Lemma RC5_SOURCES_AUX : RC5_SOURCES !! "AUX"%string = Some (0x10, 0x63).
Proof. vm_compute. reflexivity. Qed.

(** C10. The table of IR codes maps the distinct names VCR and AUX to the
    same pair (0x10, 0x63); hence for every zone selecting VCR and selecting
    AUX build the same command (for zones 1 and 2: the RC5 command with
    payload 10 63) and the same bytes on the wire. *)
Theorem vcr_aux_same_command :
  "VCR"%string <> "AUX"%string /\
  RC5_SOURCES !! "VCR"%string = Some (0x10, 0x63) /\
  RC5_SOURCES !! "AUX"%string = Some (0x10, 0x63) /\
  (forall z, ArcamCommands.select_source "VCR" z =
             ArcamCommands.select_source "AUX" z) /\
  ArcamCommands.select_source "VCR" 1 = Ok (mkArcamCommand 1 RC5_SIMULATE [x10; x63]) /\
  ArcamCommands.select_source "VCR" 2 = Ok (mkArcamCommand 2 RC5_SIMULATE [x10; x63]) /\
  (forall z, (c ← ArcamCommands.select_source "VCR" z; encode_command c) =
             (c ← ArcamCommands.select_source "AUX" z; encode_command c)).
Proof.
  assert (forall z, ArcamCommands.select_source "VCR" z =
                    ArcamCommands.select_source "AUX" z) as Heq.
  { intros z. unfold ArcamCommands.select_source.
    destruct (negb (zone_ok z)); [reflexivity|].
    change (upper "VCR") with "VCR"%string.
    change (upper "AUX") with "AUX"%string.
    rewrite RC5_SOURCES_VCR, RC5_SOURCES_AUX. reflexivity. }
  split; [discriminate|].
  split; [exact RC5_SOURCES_VCR|].
  split; [exact RC5_SOURCES_AUX|].
  split; [exact Heq|].
  split; [vm_compute; reflexivity|].
  split; [vm_compute; reflexivity|].
  intros z. rewrite Heq. reflexivity.
Qed.

(** ** The session *)

Lemma reader_only_refl (s : Session) : reader_only s s.
Proof. exists (_reader s). destruct s; reflexivity. Qed.

Lemma reader_only_trans (s1 s2 s3 : Session) :
  reader_only s1 s2 -> reader_only s2 s3 -> reader_only s1 s3.
Proof. intros [r1 ->] [r2 ->]. exists r2. reflexivity. Qed.

Lemma reader_read_only (n : Z) (s s' : Session) (res : result bytes) :
  reader_read n s = (res, s') -> reader_only s s'.
Proof.
  unfold reader_read. destruct (_reader s) as [r|].
  - destruct (read n r) as [res' r']. intros [= _ <-]. eexists; reflexivity.
  - intros [= _ <-]. apply reader_only_refl.
Qed.

Lemma _read_response_only (s s' : Session) (res : result bytes) :
  _read_response s = (res, s') -> reader_only s s'.
Proof.
  unfold _read_response. destruct (_reader s) as [r|];
    [|intros [= _ <-]; apply reader_only_refl].
  unfold mbind, M_bind, mret, M_ret, raise, lift.
  destruct (reader_read 5 s) as [[header|e] s1] eqn:E1;
    [|intros [= _ <-]; eapply reader_read_only; eassumption].
  apply reader_read_only in E1.
  destruct (len header <? 5); [intros [= _ <-]; assumption|].
  destruct (py_index header 4) as [dl|e]; [|intros [= _ <-]; assumption].
  destruct (dl + 1 >? 0).
  - destruct (reader_read (dl + 1) s1) as [[body|e] s2] eqn:E2;
      apply reader_read_only in E2;
      [|intros [= _ <-]; eapply reader_only_trans; eassumption].
    destruct (len body <? dl + 1); intros [= _ <-];
      eapply reader_only_trans; eassumption.
  - destruct (reader_read 1 s1) as [[body|e] s2] eqn:E2;
      apply reader_read_only in E2;
      [|intros [= _ <-]; eapply reader_only_trans; eassumption].
    destruct (len body <? 1); intros [= _ <-];
      eapply reader_only_trans; eassumption.
Qed.

Lemma send_command_body_split (c : ArcamCommand) (s : Session) :
  send_command_body c s =
  match send_and_read c s with
  | (Ok response_data, s1) =>
      (response ← lift (decode_response response_data);
       let '(valid, records) := validate_response response (command_code c) in
       modify (fun s => foldl (fun s r => add_log r s) s records);;
       (if negb valid then logging WARNING ResponseCommandCodeMismatch
        else mret tt);;
       logging DEBUG (ReceivedResponse response);;
       mret response) s1
  | (Raise e, s1) => (Raise e, s1)
  end.
Proof.
  unfold send_command_body, send_and_read.
  unfold mbind, M_bind, lift, logging, modify.
  destruct (encode_command c) as [frame|e]; [|reflexivity].
  destruct (writer_write frame _) as [[[]|e] s1]; [|reflexivity].
  destruct (writer_drain s1) as [[[]|e] s2]; [|reflexivity].
  destruct (_read_response s2) as [[bs|e] s3]; reflexivity.
Qed.

(** C7. When [send_command] has read bytes that decode into a response whose
    operation code differs from the command's, it returns that response:
    the only trace of the mismatch are two warning records in the log, and
    no reconnection is scheduled. The correlation check answers true
    exactly when the response's operation code equals the expected one. *)
Theorem mismatch_is_logged_not_raised
    (c : ArcamCommand) (s s1 : Session) (bs : bytes) (r : ArcamResponse) :
  is_connected s = true ->
  send_and_read c s = (Ok bs, s1) ->
  decode_response bs = Ok r ->
  r_command_code r <> command_code c ->
  send_command c s =
    (Ok r,
     add_log (DEBUG, ReceivedResponse r)
       (add_log (WARNING, ResponseCommandCodeMismatch)
          (add_log (WARNING, CommandCodeMismatch (command_code c) (r_command_code r))
             s1))) /\
  (forall r' expected,
      (validate_response r' expected).1 = true <-> r_command_code r' = expected).
Proof.
  intros Hconn Hread Hdec Hne. split.
  - unfold send_command. rewrite Hconn. cbn [negb].
    rewrite send_command_body_split, Hread.
    unfold mbind, M_bind, lift. rewrite Hdec.
    unfold validate_response.
    destruct (Z.eqb_spec (r_command_code r) (command_code c)); [contradiction|].
    reflexivity.
  - intros r' expected. unfold validate_response.
    destruct (Z.eqb_spec (r_command_code r') expected); cbn; split;
      congruence.
Qed.

Lemma mismatch_is_logged_not_raised_witness :
  (send_command (mkArcamCommand 1 POWER [xf0]) (live_session [Arrive volume_frame])).1 =
  Ok (mkArcamResponse 1 VOLUME 0 ["2"%byte]).
Proof.
  refine (f_equal fst (proj1 (mismatch_is_logged_not_raised
            (mkArcamCommand 1 POWER [xf0]) (live_session [Arrive volume_frame])
            (send_and_read (mkArcamCommand 1 POWER [xf0])
               (live_session [Arrive volume_frame])).2
            volume_frame (mkArcamResponse 1 VOLUME 0 ["2"%byte]) _ _ _ _))).
  - reflexivity.
  - vm_compute. reflexivity.
  - vm_compute. reflexivity.
  - vm_compute. discriminate.
Defined.





(** ** Reconnection *)


Lemma seqZ_one (m : Z) : seqZ m 1 = [m].
Proof. rewrite seqZ_cons by lia. rewrite seqZ_nil by lia. reflexivity. Qed.

Lemma seqZ_succ (m : Z) (n : nat) :
  seqZ m (Z.of_nat (S n)) = m :: seqZ (m + 1) (Z.of_nat n).
Proof.
  rewrite seqZ_cons by lia. f_equal. f_equal; lia.
Qed.

Lemma failed_attempts_app (l1 l2 : list log_record) :
  failed_attempts (l1 ++ l2) = failed_attempts l1 ++ failed_attempts l2.
Proof. apply omap_app. Qed.

(** [connect] on a session that is not connected. *)
Lemma connect_disconnected (s : Session) :
  _connected s = false ->
  connect s =
  let s0 := add_log (DEBUG, ConnectingTo) s in
  match network s with
  | Established r w :: rest =>
      (Ok tt,
       add_log (INFO, ConnectedTo)
         (set_reconnect_attempts 0
            (set_connected true
               (set_writer (Some w)
                  (set_reader (Some r) (set_network rest s0))))))
  | TimedOut :: rest =>
      (Raise (ArcamConnectionError ConnectionTimeoutTo), set_network rest s0)
  | Refused :: rest =>
      (Raise (ArcamConnectionError ConnectionFailedTo), set_network rest s0)
  | [] => (Raise (ArcamConnectionError ConnectionTimeoutTo), s0)
  end.
Proof.
  intros H. unfold connect, is_connected. rewrite H. reflexivity.
Qed.

(** Once the counter has reached the maximum the loop gives up at once. *)
Lemma reconnect_loop_exhausted (fuel : nat) (s : Session) :
  MAX_RECONNECT_ATTEMPTS <= _reconnect_attempts s ->
  reconnect_loop fuel s =
  Some (Ok tt, add_log (ERROR, MaxReconnectionAttemptsReached) s).
Proof.
  intros H. destruct fuel; cbn [reconnect_loop];
    destruct (Z.ltb_spec (_reconnect_attempts s) MAX_RECONNECT_ATTEMPTS);
    try lia; reflexivity.
Qed.

(** One pass of the loop below the maximum, by the outcome of the attempt. *)
Lemma reconnect_loop_step (fuel : nat) (s : Session) :
  _connected s = false ->
  _reconnect_attempts s < MAX_RECONNECT_ATTEMPTS ->
  let a := _reconnect_attempts s + 1 in
  let s1 := sleep (backoff_delay a)
              (add_log (INFO, ReconnectionAttempt a MAX_RECONNECT_ATTEMPTS
                                (backoff_delay a))
                 (set_reconnect_attempts a s)) in
  reconnect_loop (S fuel) s =
  match connect s1 with
  | (Ok _, s2) =>
      Some (Ok tt,
            add_log (INFO, ReconnectionSuccessful)
              match _broadcast_callback s2 with
              | Some _ =>
                  create_task BroadcastListener
                    (set_broadcast_task (Some Running) s2)
              | None => s2
              end)
  | (Raise (ArcamConnectionError m), s2) =>
      reconnect_loop fuel
        (add_log (WARNING, ReconnectionAttemptFailed (_reconnect_attempts s2)
                             (ArcamConnectionError m)) s2)
  | (Raise e, s2) => Some (Raise e, s2)
  end.
Proof.
  intros Hc Ha. cbn [reconnect_loop].
  destruct (Z.ltb_spec (_reconnect_attempts s) MAX_RECONNECT_ATTEMPTS); [|lia].
  reflexivity.
Qed.

(** A failed attempt followed by a run from the next counter value. *)
Lemma backoff_run_after_failure (s s3 s' : Session) (n : nat) :
  _reconnect_attempts s3 = _reconnect_attempts s + 1 ->
  slept s3 = slept s ++ [backoff_delay (_reconnect_attempts s + 1)] ->
  network s3 = drop 1 (network s) ->
  failed_attempts (log s3) =
    failed_attempts (log s) ++ [_reconnect_attempts s + 1] ->
  backoff_run s3 s' n ->
  backoff_run s s' (S n).
Proof.
  intros Ha Hs Hn Hf Hrun. unfold backoff_run in *. cbv zeta in *.
  destruct Hrun as (Hle & Hslept & Hnet & Hend).
  rewrite Ha in *. rewrite Hs in Hslept. rewrite Hn in Hnet. rewrite Hf in Hend.
  rewrite seqZ_succ, fmap_cons.
  split; [lia|]. split; [rewrite Hslept, <- app_assoc; reflexivity|].
  split; [rewrite Hnet, drop_drop; reflexivity|].
  destruct Hend as [(Hc & H0 & Hn1 & Hfa & Hl)|(Hc & H0 & Hn1 & Hfa & Hl)];
    [left|right]; repeat split; try assumption; try lia.
  - rewrite Hfa, <- app_assoc. f_equal.
    destruct n as [|n']; [lia|].
    replace (Z.of_nat (S (S n')) - 1) with (Z.of_nat (S n')) by lia.
    replace (Z.of_nat (S n') - 1) with (Z.of_nat n') by lia.
    rewrite seqZ_succ. reflexivity.
  - rewrite Hfa, <- app_assoc. reflexivity.
Qed.

(** The loop terminates within the fuel the distance to the maximum gives
    it, and its run is a [backoff_run]. *)
Lemma reconnect_loop_spec (fuel : nat) : forall s : Session,
  _connected s = false ->
  0 <= _reconnect_attempts s <= MAX_RECONNECT_ATTEMPTS ->
  MAX_RECONNECT_ATTEMPTS - _reconnect_attempts s <= Z.of_nat fuel ->
  exists s' n, reconnect_loop fuel s = Some (Ok tt, s') /\ backoff_run s s' n.
Proof.
  assert (forall fuel s,
            _connected s = false ->
            MAX_RECONNECT_ATTEMPTS <= _reconnect_attempts s <= MAX_RECONNECT_ATTEMPTS ->
            exists s' n, reconnect_loop fuel s = Some (Ok tt, s') /\
                         backoff_run s s' n) as Hstop.
  { intros f s Hc Ha. eexists. exists 0%nat.
    split; [apply reconnect_loop_exhausted; lia|].
    unfold backoff_run. cbv zeta.
    cbn [slept network log add_log _connected _reconnect_attempts drop].
    split; [lia|]. split; [cbn; rewrite app_nil_r; reflexivity|].
    split; [reflexivity|]. right.
    repeat split; try assumption; try lia.
    - rewrite failed_attempts_app. reflexivity.
    - apply last_snoc. }
  induction fuel as [|fuel IH]; intros s Hc Ha Hfuel.
  - apply Hstop; [assumption|lia].
  - destruct (Z.ltb_spec (_reconnect_attempts s) MAX_RECONNECT_ATTEMPTS) as [Hlt|Hge];
      [|apply Hstop; [assumption|lia]].
    rewrite (reconnect_loop_step fuel s Hc Hlt). cbv zeta.
    rewrite connect_disconnected by exact Hc. cbv zeta.
    cbn [network sleep add_log set_reconnect_attempts].
    destruct (network s) as [|[r w| |] rest] eqn:Hnet.
    + (* nobody answers *)
      edestruct IH as (s' & n & Hrun & Hspec); cycle 3.
      * exists s', (S n). split; [exact Hrun|].
        eapply backoff_run_after_failure; [..|exact Hspec]; cbn.
        -- reflexivity.
        -- reflexivity.
        -- rewrite Hnet. reflexivity.
        -- rewrite !failed_attempts_app. cbn. rewrite !app_nil_r. reflexivity.
      * exact Hc.
      * cbn. lia.
      * cbn. lia.
    + (* connected *)
      cbn [_broadcast_callback add_log set_reconnect_attempts set_connected
           set_writer set_reader set_network sleep].
      destruct (_broadcast_callback s) as [cb|];
        (eexists; exists 1%nat; split; [reflexivity|];
         unfold backoff_run; cbv zeta; rewrite Hnet; rewrite seqZ_one; cbn;
         split; [lia|]; split; [reflexivity|]; split; [reflexivity|];
         left; repeat split; try lia;
         [rewrite !failed_attempts_app; cbn; rewrite !app_nil_r; reflexivity
         |apply last_snoc]).
    + (* timed out *)
      edestruct IH as (s' & n & Hrun & Hspec); cycle 3.
      * exists s', (S n). split; [exact Hrun|].
        eapply backoff_run_after_failure; [..|exact Hspec]; cbn.
        -- reflexivity.
        -- reflexivity.
        -- rewrite Hnet. reflexivity.
        -- rewrite !failed_attempts_app. cbn. rewrite !app_nil_r. reflexivity.
      * exact Hc.
      * cbn. lia.
      * cbn. lia.
    + (* refused *)
      edestruct IH as (s' & n & Hrun & Hspec); cycle 3.
      * exists s', (S n). split; [exact Hrun|].
        eapply backoff_run_after_failure; [..|exact Hspec]; cbn.
        -- reflexivity.
        -- reflexivity.
        -- rewrite Hnet. reflexivity.
        -- rewrite !failed_attempts_app. cbn. rewrite !app_nil_r. reflexivity.
      * exact Hc.
      * cbn. lia.
      * cbn. lia.
Qed.




(** The two ways a run ends, on concrete outcomes: nobody ever answers, and
    the third attempt connects. *)
Example backoff_gives_up :
  (fun r => (slept r.2, _reconnect_attempts r.2, _connected r.2)) <$>
    _reconnect_with_backoff (lost_session []) =
  Some ([1; 2; 4; 8; 16], 5, false).
Proof. vm_compute. reflexivity. Qed.

Example backoff_third_attempt :
  (fun r => (slept r.2, _reconnect_attempts r.2, _connected r.2)) <$>
    _reconnect_with_backoff
      (lost_session [TimedOut; Refused;
                     Established (mkReader [] false []) (mkWriter false [] false);
                     Refused]) =
  Some ([1; 2; 4], 0, true).
Proof. vm_compute. reflexivity. Qed.

(** * Further properties of the codec and the command catalogue *)

Lemma byte_of_int_cases (v : Z) :
  (exists b, byte_of_int v = Ok b /\ byte_val b = v /\ 0 <= v < 256) \/
  (byte_of_int v = Raise (ValueError (ByteOutOfRange v)) /\ ~ 0 <= v < 256).
Proof.
  assert (0 <= v < 256 \/ ~ 0 <= v < 256) as [H|H] by lia.
  - left. destruct (byte_of_int_in_range v H) as (b & E & V). eauto.
  - right. split; [|exact H]. unfold byte_of_int. zcases; reflexivity.
Qed.

(** X1. [encode_command] succeeds exactly when zone, operation code and
    payload length each fit one byte; it then returns START, zone, code,
    length, payload, END and nothing else. Otherwise it raises the
    [ValueError] of a byte out of range, and nothing else. No value is
    truncated. *)
Theorem encode_command_range (c : ArcamCommand) :
  ((exists frame, encode_command c = Ok frame) <->
   (0 <= zone c < 256 /\ 0 <= command_code c < 256 /\ len (data c) < 256)) /\
  match encode_command c with
  | Ok frame =>
      exists bz bc bl,
        frame = "!"%byte :: bz :: bc :: bl :: data c ++ [x0d] /\
        byte_val bz = zone c /\ byte_val bc = command_code c /\
        byte_val bl = len (data c)
  | Raise e => exists v, e = ValueError (ByteOutOfRange v)
  end.
Proof.
  destruct c as [z cc d]. cbn [zone command_code data].
  assert (0 <= len d) as Hd by (unfold len; lia).
  assert (byte_of_int START_BYTE = Ok "!"%byte) as HS by reflexivity.
  assert (byte_of_int END_BYTE = Ok x0d) as HE by reflexivity.
  unfold encode_command. cbn [zone command_code data bytes_of_ints].
  unfold mbind, result_bind, mret, result_ret. rewrite HS, HE.
  destruct (byte_of_int_cases z) as [(bz & Ez & Vz & Rz)|[Ez Rz]]; rewrite Ez.
  2:{ split; [split; [intros [f [=]]|lia]|]. eexists. reflexivity. }
  destruct (byte_of_int_cases cc) as [(bc & Ec & Vc & Rc)|[Ec Rc]]; rewrite Ec.
  2:{ split; [split; [intros [f [=]]|lia]|]. eexists. reflexivity. }
  destruct (byte_of_int_cases (len d)) as [(bl & El & Vl & Rl)|[El Rl]]; rewrite El.
  2:{ split; [split; [intros [f [=]]|lia]|]. eexists. reflexivity. }
  split; [split; [lia|eauto]|].
  exists bz, bc, bl. destruct d; auto.
Qed.

(** The shape of a byte sequence that [decode_response] accepts. *)
Lemma decode_response_shape (bs : bytes) (r : ArcamResponse) :
  decode_response bs = Ok r ->
  exists bz bc ba bl,
    bs = "!"%byte :: bz :: bc :: ba :: bl :: r_data r ++ [x0d] /\
    byte_val bz = r_zone r /\ byte_val bc = r_command_code r /\
    byte_val ba = answer_code r /\ byte_val bl = len (r_data r).
Proof.
  destruct bs as [|b0 [|b1 [|b2 [|b3 [|b4 [|b5 rest]]]]]]; try discriminate.
  destruct (last (b0 :: b1 :: b2 :: b3 :: b4 :: b5 :: rest)) as [l|] eqn:Hl;
    [|apply last_None in Hl; discriminate].
  rewrite (decode_response_long _ _ _ _ _ _ l rest Hl).
  destruct (Z.eqb_spec (byte_val b0) START_BYTE) as [E0|]; [|discriminate].
  destruct (Z.eqb_spec (byte_val l) END_BYTE) as [E1|]; [|discriminate].
  cbn [negb].
  set (bs := b0 :: _) in *.
  destruct (Z.eqb_spec (len bs) (6 + byte_val b4)) as [E2|]; [|discriminate].
  cbn [negb]. intros [= <-]. cbn [r_zone r_command_code answer_code r_data].
  apply (byte_val_inj b0 "!"%byte) in E0.
  apply (byte_val_inj l x0d) in E1. subst b0 l.
  assert (exists payload, b5 :: rest = payload ++ [x0d]) as [payload Hp].
  { change (last bs) with (last (b5 :: rest)) in Hl.
    apply last_Some in Hl. exact Hl. }
  assert (bs = ["!"%byte; b1; b2; b3; b4] ++ payload ++ [x0d]) as Hbs
    by (unfold bs; rewrite Hp; reflexivity).
  assert (len payload = byte_val b4) as Hlen.
  { rewrite Hbs in E2. unfold len in *. rewrite !length_app in E2.
    cbn [length] in E2. lia. }
  exists b1, b2, b3, b4.
  rewrite Z.gtb_ltb. destruct (Z.ltb_spec 0 (byte_val b4)) as [Hpos|Hz].
  - assert (py_slice bs 5 (5 + byte_val b4) = payload) as ->.
    { rewrite <- Hlen, Hbs.
      apply (py_slice_payload ["!"%byte; b1; b2; b3; b4]). reflexivity. }
    repeat split; try reflexivity; [exact Hbs|symmetry; exact Hlen].
  - destruct payload as [|p payload];
      [|unfold len in Hlen; cbn [length] in Hlen; lia].
    repeat split; try reflexivity; [exact Hbs|].
    pose proof (byte_val_range b4). unfold len. cbn. lia.
Qed.

(** X2. A byte sequence that [decode_response] accepts is determined by the
    response it yields: it is START, the zone, code, status and length
    bytes, the payload and END, the length byte counting the payload. Two
    accepted sequences with the same response are equal. *)
Theorem decode_response_rebuild (bs : bytes) (r : ArcamResponse) :
  decode_response bs = Ok r ->
  (exists bz bc ba bl,
      bs = "!"%byte :: bz :: bc :: ba :: bl :: r_data r ++ [x0d] /\
      byte_val bz = r_zone r /\ byte_val bc = r_command_code r /\
      byte_val ba = answer_code r /\ byte_val bl = len (r_data r)) /\
  (forall bs', decode_response bs' = Ok r -> bs' = bs).
Proof.
  pose proof decode_response_shape as Hshape.
  intros Hdec. split; [apply Hshape; exact Hdec|].
  intros bs' Hdec'.
  destruct (Hshape _ _ Hdec) as (bz & bc & ba & bl & -> & Vz & Vc & Va & Vl).
  destruct (Hshape _ _ Hdec') as (bz' & bc' & ba' & bl' & -> & Vz' & Vc' & Va' & Vl').
  rewrite <- Vz in Vz'. rewrite <- Vc in Vc'. rewrite <- Va in Va'.
  rewrite <- Vl in Vl'.
  apply byte_val_inj in Vz', Vc', Va', Vl'. subst. reflexivity.
Qed.

Lemma decode_response_rebuild_witness :
  exists bz bc ba bl,
    volume_frame = "!"%byte :: bz :: bc :: ba :: bl :: ["2"%byte] ++ [x0d] /\
    byte_val bz = 1 /\ byte_val bc = VOLUME /\
    byte_val ba = 0 /\ byte_val bl = 1.
Proof.
  exact (proj1 (decode_response_rebuild volume_frame
                  (mkArcamResponse 1 VOLUME 0 ["2"%byte]) eq_refl)).
Defined.

Lemma zone_ok_iff (z : Z) : zone_ok z = true <-> 1 <= z <= 2.
Proof. unfold zone_ok. zcases; split; intros; lia || discriminate || reflexivity. Qed.

Lemma zone_ok_false (z : Z) : ~ 1 <= z <= 2 -> zone_ok z = false.
Proof. intros H. destruct (zone_ok z) eqn:E; [|reflexivity]. apply zone_ok_iff in E. lia. Qed.

(** Range side conditions on the operation codes and on short payloads. *)
Ltac code_range :=
  first [assumption
        |unfold POWER, SOFTWARE_VERSION, RC5_SIMULATE, VOLUME, MUTE, SOURCE, len;
         cbn [length]; lia].

Lemma ArcamCommand_new_valid (z cc : Z) (d : bytes) :
  1 <= z <= 2 -> 0 <= cc <= 255 -> len d <= 255 ->
  ArcamCommand_new z cc d = Ok (mkArcamCommand z cc d).
Proof. intros Hz Hc Hd. unfold ArcamCommand_new. zcases. reflexivity. Qed.

(** X3. Every builder of the catalogue checks the zone first: with a zone
    outside 1..2 each of the eleven raises [ValueError] for the zone,
    whatever its other arguments are. *)
Theorem builders_reject_zone (z v d1 d2 : Z) (src : string) :
  ~ 1 <= z <= 2 ->
  ArcamCommands.power_on z = Raise (ValueError (InvalidZone z)) /\
  ArcamCommands.power_off z = Raise (ValueError (InvalidZone z)) /\
  ArcamCommands.get_power_status z = Raise (ValueError (InvalidZone z)) /\
  ArcamCommands.set_volume v z = Raise (ValueError (InvalidZone z)) /\
  ArcamCommands.get_volume z = Raise (ValueError (InvalidZone z)) /\
  ArcamCommands.get_mute_status z = Raise (ValueError (InvalidZone z)) /\
  ArcamCommands.toggle_mute z = Raise (ValueError (InvalidZone z)) /\
  ArcamCommands.get_source z = Raise (ValueError (InvalidZone z)) /\
  ArcamCommands.select_source src z = Raise (ValueError (InvalidZone z)) /\
  ArcamCommands.get_software_version z = Raise (ValueError (InvalidZone z)) /\
  ArcamCommands.simulate_rc5 d1 d2 z = Raise (ValueError (InvalidZone z)).
Proof.
  intros H. apply zone_ok_false in H.
  unfold ArcamCommands.power_on, ArcamCommands.power_off,
    ArcamCommands.get_power_status, ArcamCommands.set_volume,
    ArcamCommands.get_volume, ArcamCommands.get_mute_status,
    ArcamCommands.toggle_mute, ArcamCommands.get_source,
    ArcamCommands.select_source, ArcamCommands.get_software_version,
    ArcamCommands.simulate_rc5.
  rewrite H. cbn [negb]. repeat split.
Qed.

Lemma builders_reject_zone_witness :
  ArcamCommands.set_volume 150 3 = Raise (ValueError (InvalidZone 3)) /\
  ArcamCommands.select_source "NOWHERE" 3 = Raise (ValueError (InvalidZone 3)).
Proof.
  pose proof (builders_reject_zone 3 150 0 0 "NOWHERE" ltac:(lia)) as H.
  split; [apply H|apply H].
Defined.

(** X4. For a zone in 1..2 the five query builders build the command that
    [create_status_request] builds for their operation code: that zone,
    that code and the single payload byte 0xF0. *)
Theorem status_queries_uniform (z : Z) :
  1 <= z <= 2 ->
  ArcamCommands.get_power_status z = Ok (mkArcamCommand z POWER [xf0]) /\
  ArcamCommands.get_volume z = Ok (mkArcamCommand z VOLUME [xf0]) /\
  ArcamCommands.get_mute_status z = Ok (mkArcamCommand z MUTE [xf0]) /\
  ArcamCommands.get_source z = Ok (mkArcamCommand z SOURCE [xf0]) /\
  ArcamCommands.get_software_version z = Ok (mkArcamCommand z SOFTWARE_VERSION [xf0]) /\
  create_status_request z POWER = ArcamCommands.get_power_status z /\
  create_status_request z VOLUME = ArcamCommands.get_volume z /\
  create_status_request z MUTE = ArcamCommands.get_mute_status z /\
  create_status_request z SOURCE = ArcamCommands.get_source z /\
  create_status_request z SOFTWARE_VERSION = ArcamCommands.get_software_version z.
Proof.
  intros H. pose proof (proj2 (zone_ok_iff z) H) as Hz.
  unfold ArcamCommands.get_power_status, ArcamCommands.get_volume,
    ArcamCommands.get_mute_status, ArcamCommands.get_source,
    ArcamCommands.get_software_version, create_status_request.
  rewrite Hz. cbn [negb].
  change (bytes_of_ints [STATUS_REQUEST]) with (Ok [xf0]).
  change (bytes_of_ints [240]) with (Ok [xf0]).
  unfold mbind, result_bind.
  rewrite !ArcamCommand_new_valid by code_range.
  repeat split.
Qed.

Lemma status_queries_uniform_witness :
  ArcamCommands.get_source 2 = Ok (mkArcamCommand 2 SOURCE [xf0]).
Proof.
  exact (proj1 (proj2 (proj2 (proj2 (status_queries_uniform 2 ltac:(lia)))))).
Defined.

(** X5. [set_volume] accepts exactly a zone in 1..2 with a volume in 0..99;
    the command it builds carries that zone and the volume operation code,
    and its payload read back by [decode_volume_response] is the volume.
    A rejection is a [ValueError] for the zone or for the volume. *)
Theorem set_volume_round_trip (v z : Z) :
  ((exists c, ArcamCommands.set_volume v z = Ok c) <->
   (1 <= z <= 2 /\ 0 <= v <= 99)) /\
  match ArcamCommands.set_volume v z with
  | Ok c =>
      zone c = z /\ command_code c = VOLUME /\
      decode_volume_response (data c) = Ok (Some v)
  | Raise e =>
      e = ValueError (InvalidZone z) \/ e = ValueError (InvalidVolume v)
  end.
Proof.
  unfold ArcamCommands.set_volume.
  destruct (zone_ok z) eqn:Hz; cbn [negb].
  2:{ split; [|auto]. split; [intros [c [=]]|].
      intros [H _]. apply zone_ok_iff in H. congruence. }
  apply zone_ok_iff in Hz.
  destruct (Z.leb_spec 0 v); [destruct (Z.leb_spec v 99)|]; cbn [negb andb].
  2,3: (split; [|auto]; split; [intros [c [=]]|lia]).
  cbn [bytes_of_ints]. unfold mbind, result_bind, mret, result_ret.
  destruct (byte_of_int_in_range v) as (bv & -> & Vv); [lia|].
  rewrite ArcamCommand_new_valid by code_range.
  split; [split; [lia|eauto]|].
  cbn [zone command_code data]. split; [reflexivity|]. split; [reflexivity|].
  change (decode_volume_response [bv]) with (Ok (Some (byte_val bv))).
  rewrite Vv. reflexivity.
Qed.

Lemma RC5_SOURCES_bytes (k : string) (p : Z * Z) :
  RC5_SOURCES !! k = Some p -> 0 <= p.1 <= 255 /\ 0 <= p.2 <= 255.
Proof.
  unfold RC5_SOURCES. intros H. apply elem_of_list_to_map_2 in H.
  unfold RC5_SOURCES_items in H.
  repeat (apply elem_of_cons in H as [H|H]; [inversion H; subst; cbn; lia|]).
  apply elem_of_nil in H. destruct H.
Qed.

(** X6. [simulate_rc5] accepts exactly a zone in 1..2 with both code bytes in
    0..255. Toggling mute and selecting a source are instances of it:
    [toggle_mute] is [simulate_rc5] of the pair (0x10, 0x0D), and, for an
    ASCII name, [select_source] of a name whose upper-case form the table
    knows is [simulate_rc5] of that entry's pair, for every zone, and
    [select_source] of any other ASCII name builds no command. *)
Theorem rc5_builders (d1 d2 z : Z) (src : string) :
  ascii_only src = true ->
  ((exists c, ArcamCommands.simulate_rc5 d1 d2 z = Ok c) <->
   (1 <= z <= 2 /\ 0 <= d1 <= 255 /\ 0 <= d2 <= 255)) /\
  ArcamCommands.toggle_mute z = ArcamCommands.simulate_rc5 0x10 0x0D z /\
  match RC5_SOURCES !! upper src with
  | Some p =>
      ArcamCommands.select_source src z = ArcamCommands.simulate_rc5 p.1 p.2 z
  | None => forall c, ArcamCommands.select_source src z <> Ok c
  end.
Proof.
  intros _. split; [|split].
  - unfold ArcamCommands.simulate_rc5.
    destruct (zone_ok z) eqn:Hz; cbn [negb].
    2:{ split; [intros [c [=]]|]. intros [H _]. apply zone_ok_iff in H. congruence. }
    apply zone_ok_iff in Hz.
    destruct (Z.leb_spec 0 d1); [destruct (Z.leb_spec d1 255)|]; cbn [negb andb];
      try (split; [intros [c [=]]|lia]).
    destruct (Z.leb_spec 0 d2); [destruct (Z.leb_spec d2 255)|]; cbn [negb andb];
      try (split; [intros [c [=]]|lia]).
    cbn [bytes_of_ints]. unfold mbind, result_bind, mret, result_ret.
    destruct (byte_of_int_in_range d1) as (b1 & -> & _); [lia|].
    destruct (byte_of_int_in_range d2) as (b2 & -> & _); [lia|].
    rewrite ArcamCommand_new_valid by code_range.
    split; [lia|eauto].
  - unfold ArcamCommands.toggle_mute, ArcamCommands.simulate_rc5.
    destruct (zone_ok z); reflexivity.
  - destruct (RC5_SOURCES !! upper src) as [p|] eqn:E.
    + apply RC5_SOURCES_bytes in E as Hp.
      unfold ArcamCommands.select_source, ArcamCommands.simulate_rc5.
      rewrite E. destruct (zone_ok z); cbn [negb]; [|reflexivity].
      destruct Hp as [[? ?] [? ?]]. zcases. reflexivity.
    + intros c. unfold ArcamCommands.select_source. rewrite E.
      destruct (zone_ok z); discriminate.
Qed.

Lemma rc5_builders_witness :
  ArcamCommands.select_source "stb" 2 = ArcamCommands.simulate_rc5 0x10 0x64 2.
Proof.
  exact (proj2 (proj2 (rc5_builders 0x10 0x64 2 "stb" eq_refl))).
Defined.

Lemma upper_ascii_idem (c : ascii) : upper_ascii (upper_ascii c) = upper_ascii c.
Proof. destruct c as [[] [] [] [] [] [] [] []]; reflexivity. Qed.

Lemma upper_idem (s : string) : upper (upper s) = upper s.
Proof.
  induction s as [|c s IH]; [reflexivity|].
  cbn [upper]. rewrite upper_ascii_idem, IH. reflexivity.
Qed.

(** An ASCII name stays one in upper case, and the tables hold ASCII names
    only. *)
Lemma upper_ascii_char (c : ascii) :
  ascii_char c = true -> ascii_char (upper_ascii c) = true.
Proof. destruct c as [[] [] [] [] [] [] [] []]; intros H; exact H || reflexivity. Qed.

Lemma upper_ascii_only (s : string) :
  ascii_only s = true -> ascii_only (upper s) = true.
Proof.
  induction s as [|c s IH]; [reflexivity|]. cbn [ascii_only upper].
  intros [Hc Hs]%andb_true_iff. rewrite (upper_ascii_char c Hc). exact (IH Hs).
Qed.

Lemma RC5_SOURCES_ascii (k : string) :
  is_Some (RC5_SOURCES !! k) -> ascii_only k = true.
Proof.
  intros [p H]. unfold RC5_SOURCES in H. apply elem_of_list_to_map_2 in H.
  unfold RC5_SOURCES_items in H.
  repeat (apply elem_of_cons in H as [H|H]; [inversion H; subst; reflexivity|]).
  apply elem_of_nil in H. destruct H.
Qed.

Lemma select_source_facts (src : string) (z : Z) :
  ((exists c, ArcamCommands.select_source src z = Ok c) <->
   (1 <= z <= 2 /\ is_valid_source src = true)) /\
  (forall c, ArcamCommands.select_source (upper src) z = Ok c <->
             ArcamCommands.select_source src z = Ok c) /\
  is_valid_source (upper src) = is_valid_source src /\
  match ArcamCommands.select_source src z with
  | Ok c => zone c = z /\ command_code c = RC5_SIMULATE /\ len (data c) = 2
  | Raise e =>
      e = ValueError (InvalidZone z) \/
      e = ValueError (InvalidSource src get_available_sources)
  end.
Proof.
  unfold ArcamCommands.select_source, is_valid_source. rewrite upper_idem.
  destruct (zone_ok z) eqn:Hz; cbn [negb].
  2:{ split; [|split; [|split]].
      - split; [intros [c [=]]|]. intros [H _]. apply zone_ok_iff in H. congruence.
      - intros c. reflexivity.
      - reflexivity.
      - left. reflexivity. }
  apply zone_ok_iff in Hz.
  destruct (RC5_SOURCES !! upper src) as [p|] eqn:E.
  - apply RC5_SOURCES_bytes in E as [[? ?] [? ?]].
    cbn [bytes_of_ints]. unfold mbind, result_bind, mret, result_ret.
    destruct (byte_of_int_in_range p.1) as (b1 & -> & _); [lia|].
    destruct (byte_of_int_in_range p.2) as (b2 & -> & _); [lia|].
    rewrite ArcamCommand_new_valid by code_range.
    split; [split; [auto|eauto]|]. split; [intros c; reflexivity|].
    split; [reflexivity|]. cbn. auto.
  - split; [split; [intros [c [=]]|intros [_ [=]]]|].
    split; [intros c; split; intros [=]|]. split; [reflexivity|]. right. reflexivity.
Qed.

(** X7. For an ASCII name: [select_source] succeeds exactly for a zone in
    1..2 and a name that [is_valid_source] accepts; the name is matched
    without regard to the case of its letters, so a name and its upper-case
    form build the same command. The command is an RC5 command with a
    2-byte payload; a rejection is a [ValueError] for the zone, or one
    naming the source and listing the available ones. *)
Theorem select_source_accepts (src : string) (z : Z) :
  ascii_only src = true ->
  ((exists c, ArcamCommands.select_source src z = Ok c) <->
   (1 <= z <= 2 /\ is_valid_source src = true)) /\
  (forall c, ArcamCommands.select_source (upper src) z = Ok c <->
             ArcamCommands.select_source src z = Ok c) /\
  is_valid_source (upper src) = is_valid_source src /\
  match ArcamCommands.select_source src z with
  | Ok c => zone c = z /\ command_code c = RC5_SIMULATE /\ len (data c) = 2
  | Raise e =>
      e = ValueError (InvalidZone z) \/
      e = ValueError (InvalidSource src get_available_sources)
  end.
Proof. intros _. exact (select_source_facts src z). Qed.

Lemma select_source_accepts_witness :
  exists c, ArcamCommands.select_source "Game" 1 = Ok c.
Proof.
  apply (proj1 (select_source_accepts "Game" 1 eq_refl)).
  split; [lia|reflexivity].
Defined.

Lemma SOURCE_CODES_from_items : SOURCE_CODES = list_to_map SOURCE_CODES_items.
Proof. reflexivity. Qed.

Lemma SOURCE_NAME_TO_CODE_items :
  SOURCE_NAME_TO_CODE =
  list_to_map
    [ ("CD", 0x00); ("BD", 0x01); ("AV", 0x02); ("STB", 0x03); ("SAT", 0x04);
      ("PVR", 0x05); ("VCR", 0x06); ("AUX", 0x07); ("GAME", 0x08);
      ("NET", 0x09); ("FM", 0x0A); ("DAB", 0x0B); ("BT", 0x0C); ("USB", 0x0D);
      ("UHD", 0x0E) ]%string.
Proof. vm_compute. reflexivity. Qed.

Lemma source_names_selectable : dom SOURCE_NAME_TO_CODE = dom RC5_SOURCES.
Proof. vm_compute. reflexivity. Qed.

Lemma source_tables_facts (c : Z) (n : string) :
  (get_source_code n = Some c <-> get_source_name c = Some (upper n)) /\
  (is_Some (get_source_name c) <-> 0 <= c <= 14) /\
  (is_valid_source n = true <-> is_Some (get_source_code n)).
Proof.
  split; [|split].
  - unfold get_source_code, get_source_name. generalize (upper n). clear n.
    intros n. split; intros H.
    + rewrite SOURCE_NAME_TO_CODE_items in H. apply elem_of_list_to_map_2 in H.
      repeat (apply elem_of_cons in H as [H|H];
              [inversion H; subst; vm_compute; reflexivity|]).
      apply elem_of_nil in H. destruct H.
    + rewrite SOURCE_CODES_from_items in H. apply elem_of_list_to_map_2 in H.
      unfold SOURCE_CODES_items in H.
      repeat (apply elem_of_cons in H as [H|H];
              [inversion H; subst; vm_compute; reflexivity|]).
      apply elem_of_nil in H. destruct H.
  - unfold get_source_name. split.
    + intros [x H]. rewrite SOURCE_CODES_from_items in H.
      apply elem_of_list_to_map_2 in H. unfold SOURCE_CODES_items in H.
      repeat (apply elem_of_cons in H as [H|H]; [inversion H; subst; lia|]).
      apply elem_of_nil in H. destruct H.
    + intros H.
      assert (c = 0 \/ c = 1 \/ c = 2 \/ c = 3 \/ c = 4 \/ c = 5 \/ c = 6 \/
              c = 7 \/ c = 8 \/ c = 9 \/ c = 10 \/ c = 11 \/ c = 12 \/
              c = 13 \/ c = 14) as Hc by lia.
      repeat (destruct Hc as [->|Hc]; [eexists; vm_compute; reflexivity|]).
      subst c. eexists; vm_compute; reflexivity.
  - unfold is_valid_source, get_source_code.
    rewrite <- elem_of_dom, source_names_selectable, elem_of_dom.
    destruct (RC5_SOURCES !! upper n); split; intros H;
      try reflexivity; try discriminate; eauto.
    destruct H as [? [=]].
Qed.

(** X8. The two source tables are inverse to each other: an ASCII name has
    code [c] exactly when code [c] has that name (in upper case); the codes
    with a name are 0..14; and the ASCII names with a code are exactly the
    ASCII names [is_valid_source] accepts, that is, those [select_source]
    can select. *)
Theorem source_tables_inverse (c : Z) (n : string) :
  ascii_only n = true ->
  (get_source_code n = Some c <-> get_source_name c = Some (upper n)) /\
  (is_Some (get_source_name c) <-> 0 <= c <= 14) /\
  (is_valid_source n = true <-> is_Some (get_source_code n)).
Proof. intros _. exact (source_tables_facts c n). Qed.

Lemma source_tables_inverse_witness : get_source_code "stb" = Some 3.
Proof.
  apply (proj1 (source_tables_inverse 3 "stb" eq_refl)). reflexivity.
Defined.

Lemma decode_source_response_single (b : byte) :
  decode_source_response [b] = Ok (get_source_name (byte_val b)).
Proof. reflexivity. Qed.

(** X9. [decode_source_response] never raises. A name it returns comes from
    a 1-byte payload, has that byte as its code and can be selected with
    [select_source]; it returns no value exactly for a payload of another
    length or a byte above 14. *)
Theorem decode_source_response_spec (payload : bytes) :
  match decode_source_response payload with
  | Ok (Some n) =>
      exists b, payload = [b] /\ get_source_code n = Some (byte_val b) /\
                is_valid_source n = true /\
                exists c, ArcamCommands.select_source n 1 = Ok c
  | Ok None => len payload <> 1 \/ exists b, payload = [b] /\ 14 < byte_val b
  | Raise _ => False
  end.
Proof.
  destruct (Z.eq_dec (len payload) 1) as [E|E].
  - apply len_single_iff in E as [b ->]. rewrite decode_source_response_single.
    destruct (get_source_name (byte_val b)) as [n|] eqn:Hn.
    + assert (upper n = n) as Hup.
      { unfold get_source_name in Hn. rewrite SOURCE_CODES_from_items in Hn.
        apply elem_of_list_to_map_2 in Hn. unfold SOURCE_CODES_items in Hn.
        repeat (apply elem_of_cons in Hn as [Hn|Hn];
                [inversion Hn; subst; reflexivity|]).
        apply elem_of_nil in Hn. destruct Hn. }
      assert (get_source_code n = Some (byte_val b)) as Hcode.
      { apply source_tables_facts. rewrite Hup. exact Hn. }
      assert (is_valid_source n = true) as Hvalid.
      { apply (source_tables_facts 0 n). eauto. }
      exists b. repeat split; try assumption.
      apply (select_source_facts n 1). split; [lia|exact Hvalid].
    + right. exists b. split; [reflexivity|].
      destruct (Z.le_gt_cases (byte_val b) 14) as [Hle|Hgt]; [|lia].
      pose proof (byte_val_range b).
      assert (is_Some (get_source_name (byte_val b))) as [x Hx]
        by (apply (source_tables_facts _ ""%string); lia).
      congruence.
  - unfold decode_source_response.
    destruct (Z.eqb_spec (len payload) 1); [contradiction|]. cbn. left. exact E.
Qed.

Lemma rstrip_nul_spec (s : string) :
  exists k, s = (rstrip_nul s ++ nul_string k)%string /\
            last_char (rstrip_nul s) <> Some Ascii.zero.
Proof.
  induction s as [|c s (k & IH & Hl)].
  - exists 0%nat. split; [reflexivity|discriminate].
  - cbn [rstrip_nul]. destruct (rstrip_nul s) as [|a r] eqn:E.
    + destruct (Ascii.eqb_spec c Ascii.zero) as [->|Hc].
      * exists (S k). split; [|discriminate]. cbn. rewrite IH at 1. reflexivity.
      * exists k. split; [cbn; rewrite IH at 1; reflexivity|].
        cbn. congruence.
    + exists k. split; [cbn; rewrite IH at 1; reflexivity|]. exact Hl.
Qed.

Lemma string_length_append (s t : string) :
  String.length (s ++ t)%string = (String.length s + String.length t)%nat.
Proof.
  induction s as [|c s IH]; [reflexivity|].
  change (S (String.length (s ++ t)%string) = S (String.length s + String.length t)).
  rewrite IH. reflexivity.
Qed.

Lemma forallb_false_elem {A} (f : A -> bool) (l : list A) :
  forallb f l = false -> exists x, x ∈ l /\ f x = false.
Proof.
  induction l as [|a l IH]; [discriminate|]. cbn [forallb].
  destruct (f a) eqn:Ea; cbn [andb].
  - intros H. destruct (IH H) as (x & Hx & Hf). exists x.
    split; [right; exact Hx|exact Hf].
  - intros _. exists a. split; [left|exact Ea].
Qed.

(** X10. [decode_version_response] never raises. It returns text exactly for
    a 12-byte payload of ASCII bytes (all below 0x80): the text is the
    payload with its trailing NUL bytes removed, so it does not end in NUL
    and is at most 12 characters long. For any other length, or with a byte
    of 0x80 or above, it returns no value. *)
Theorem decode_version_response_spec (payload : bytes) :
  match decode_version_response payload with
  | Ok (Some v) =>
      len payload = 12 /\
      (forall b, b ∈ payload -> byte_val b < 128) /\
      (exists k, string_of_list_byte payload = (v ++ nul_string k)%string) /\
      last_char v <> Some Ascii.zero /\
      (String.length v <= 12)%nat
  | Ok None =>
      len payload <> 12 \/ exists b, b ∈ payload /\ 128 <= byte_val b
  | Raise _ => False
  end.
Proof.
  unfold decode_version_response.
  destruct (Z.eqb_spec (len payload) 12) as [E|E]; cbn [negb];
    [|left; exact E].
  unfold decode_ascii.
  destruct (forallb (fun b => byte_val b <? 128) payload) eqn:Hf.
  - cbn. destruct (rstrip_nul_spec (string_of_list_byte payload)) as (k & Hk & Hl).
    split; [exact E|]. split.
    { intros b Hb. rewrite forallb_forall in Hf.
      apply list_elem_of_In in Hb. specialize (Hf b Hb).
      apply Z.ltb_lt in Hf. exact Hf. }
    split; [exists k; exact Hk|]. split; [exact Hl|].
    assert (String.length (string_of_list_byte payload) = length payload) as Hlen.
    { unfold string_of_list_byte. clear. induction payload as [|b l IH];
        [reflexivity|]. cbn. rewrite IH. reflexivity. }
    rewrite Hk in Hlen at 1. rewrite string_length_append in Hlen.
    unfold len in E. lia.
  - cbn. right. apply forallb_false_elem in Hf as (b & Hb & Hf).
    exists b. split; [exact Hb|]. apply Z.ltb_ge in Hf. exact Hf.
Qed.

(** A version payload padded with NUL bytes, and one holding a non-ASCII byte. *)
Example decode_version_padded :
  decode_version_response
    [x31; x2e; x32; x2e; x33; x00; x00; x00; x00; x00; x00; x00] =
  Ok (Some "1.2.3"%string).
Proof. reflexivity. Qed.

Example decode_version_non_ascii :
  decode_version_response
    [x31; x2e; x32; xe9; x33; x00; x00; x00; x00; x00; x00; x00] = Ok None.
Proof. reflexivity. Qed.

(** * Further properties of the session *)

Lemma read_length (n : Z) (r r' : StreamReader) (bs : bytes) :
  read n r = (Ok bs, r') -> 0 <= n -> len bs <= n.
Proof.
  unfold read. intros H Hn.
  assert (forall l : bytes, len (take (Z.to_nat n) l) <= n) as Htake.
  { intros l. unfold len. rewrite length_take. lia. }
  destruct (Z.eqb_spec n 0); [injection H as <- _; unfold len; cbn; lia|].
  destruct (buffer r) as [|b buf].
  - destruct (eof r).
    + injection H as <- _. apply Htake.
    + destruct (await_data (incoming r)) as [[[chunk e]|e] evs];
        [|discriminate]. injection H as <- _. apply Htake.
  - destruct (eof r); injection H as <- _; apply Htake.
Qed.

Lemma reader_read_length (n : Z) (s s' : Session) (bs : bytes) :
  reader_read n s = (Ok bs, s') -> 0 <= n -> len bs <= n.
Proof.
  unfold reader_read. destruct (_reader s) as [r|]; [|discriminate].
  destruct (read n r) as [res r'] eqn:E. intros [= -> _].
  eapply read_length; eassumption.
Qed.

(** The bytes [_read_response] returns: a 5-byte header and as many more
    bytes as its last byte says, plus one. *)
Lemma _read_response_shape (s s' : Session) (bs : bytes) :
  _read_response s = (Ok bs, s') ->
  exists b0 b1 b2 b3 b4 body,
    bs = b0 :: b1 :: b2 :: b3 :: b4 :: body /\ len body = byte_val b4 + 1.
Proof.
  unfold _read_response. destruct (_reader s) as [r|]; [|discriminate].
  unfold mbind, M_bind, mret, M_ret, raise, lift.
  destruct (reader_read 5 s) as [[header|e] s1] eqn:E1; [|discriminate].
  apply reader_read_length in E1; [|lia].
  destruct (Z.ltb_spec (len header) 5) as [|H5]; [discriminate|].
  destruct header as [|b0 [|b1 [|b2 [|b3 [|b4 [|b5 tl]]]]]];
    try (unfold len in *; cbn [length] in *; lia).
  change (py_index [b0; b1; b2; b3; b4] 4) with (Ok (byte_val b4)).
  cbv beta iota zeta.
  pose proof (byte_val_range b4) as Hb.
  rewrite Z.gtb_ltb. destruct (Z.ltb_spec 0 (byte_val b4 + 1)); [|lia].
  destruct (reader_read (byte_val b4 + 1) s1) as [[body|e] s2] eqn:E2;
    [|discriminate].
  apply reader_read_length in E2; [|lia].
  destruct (Z.ltb_spec (len body) (byte_val b4 + 1)); [discriminate|].
  intros [= <- _]. exists b0, b1, b2, b3, b4, body. split; [reflexivity|lia].
Qed.

(** X11. The bytes [_read_response] returns always pass the length checks of
    [decode_response]: they are at least 6 and their LENGTH byte equals
    their length minus 6. Decoding them can only fail on the first or on
    the last byte. *)
Theorem read_response_length_consistent (s s' : Session) (bs : bytes) :
  _read_response s = (Ok bs, s') ->
  6 <= len bs /\
  byte_val <$> bs !! 4%nat = Some (len bs - 6) /\
  match decode_response bs with
  | Ok _ => True
  | Raise e =>
      exists v, e = ArcamProtocolError (InvalidStartByte v) \/
                e = ArcamProtocolError (InvalidEndByte v)
  end.
Proof.
  intros H. apply _read_response_shape in H
    as (b0 & b1 & b2 & b3 & b4 & body & -> & Hbody).
  pose proof (byte_val_range b4) as Hb.
  destruct body as [|b5 rest]; [unfold len in Hbody; cbn [length] in Hbody; lia|].
  assert (len (b0 :: b1 :: b2 :: b3 :: b4 :: b5 :: rest) = 6 + byte_val b4) as Hlen.
  { unfold len in *. cbn [length] in *. lia. }
  split; [lia|]. split; [cbn; f_equal; lia|].
  destruct (last (b0 :: b1 :: b2 :: b3 :: b4 :: b5 :: rest)) as [l|] eqn:Hl;
    [|apply last_None in Hl; discriminate].
  rewrite (decode_response_long _ _ _ _ _ _ l rest Hl), Hlen, Z.eqb_refl.
  destruct (negb (byte_val b0 =? START_BYTE)); [eauto|].
  destruct (negb (byte_val l =? END_BYTE)); [eauto|]. exact I.
Qed.

Lemma read_response_length_consistent_witness :
  6 <= len garbled_frame /\
  byte_val <$> garbled_frame !! 4%nat = Some (len garbled_frame - 6).
Proof.
  pose proof (read_response_length_consistent garbled_session
                (_read_response garbled_session).2 garbled_frame eq_refl) as H.
  split; [apply H|apply H].
Defined.

Lemma read_arrive (n : Z) (chunk : bytes) (evs : list event) :
  0 < n -> chunk <> [] ->
  read n (mkReader [] false (Arrive chunk :: evs)) =
  (Ok (take (Z.to_nat n) chunk), mkReader (drop (Z.to_nat n) chunk) false evs).
Proof.
  intros Hn Hc. unfold read. destruct (Z.eqb_spec n 0); [lia|].
  destruct chunk; [congruence|]. reflexivity.
Qed.

Lemma read_buffered (n : Z) (b : byte) (buf : bytes) (e : bool) (evs : list event) :
  0 < n ->
  read n (mkReader (b :: buf) e evs) =
  (Ok (take (Z.to_nat n) (b :: buf)), mkReader (drop (Z.to_nat n) (b :: buf)) e evs).
Proof.
  intros Hn. unfold read. destruct (Z.eqb_spec n 0); [lia|].
  destruct e; reflexivity.
Qed.

Lemma reader_read_at (n : Z) (s : Session) (r : StreamReader) :
  _reader s = Some r ->
  reader_read n s = ((read n r).1, set_reader (Some (read n r).2) s).
Proof.
  intros H. unfold reader_read. rewrite H. destruct (read n r). reflexivity.
Qed.

(** Reading a whole frame from one chunk. *)
Lemma read_whole_frame
    (s : Session) (b0 b1 b2 b3 b4 : byte) (body rest : bytes) (evs : list event) :
  _reader s =
    Some (mkReader [] false
            (Arrive (b0 :: b1 :: b2 :: b3 :: b4 :: body ++ rest) :: evs)) ->
  len body = byte_val b4 + 1 ->
  _read_response s =
  (Ok (b0 :: b1 :: b2 :: b3 :: b4 :: body),
   set_reader (Some (mkReader rest false evs)) s).
Proof.
  intros Hr Hlen. pose proof (byte_val_range b4) as Hb.
  unfold _read_response. rewrite Hr.
  unfold mbind, M_bind, mret, M_ret, raise, lift.
  rewrite (reader_read_at 5 s _ Hr), read_arrive by (lia || discriminate).
  cbn [fst snd]. change (Z.to_nat 5) with 5%nat. change (take 5 (b0 :: b1 :: b2 :: b3 :: b4 :: body ++ rest))
    with [b0; b1; b2; b3; b4].
  change (drop 5 (b0 :: b1 :: b2 :: b3 :: b4 :: body ++ rest)) with (body ++ rest).
  change (len [b0; b1; b2; b3; b4] <? 5) with false.
  change (py_index [b0; b1; b2; b3; b4] 4) with (Ok (byte_val b4)).
  cbv beta iota zeta.
  rewrite Z.gtb_ltb. destruct (Z.ltb_spec 0 (byte_val b4 + 1)); [|lia].
  destruct body as [|b5 body]; [unfold len in Hlen; cbn [length] in Hlen; lia|].
  rewrite (reader_read_at _ _ (mkReader ((b5 :: body) ++ rest) false evs))
    by reflexivity.
  change ((b5 :: body) ++ rest) with (b5 :: body ++ rest).
  rewrite read_buffered by lia. cbn [fst snd].
  assert (Z.to_nat (byte_val b4 + 1) = length (b5 :: body)) as ->
    by (unfold len in Hlen; lia).
  change (b5 :: body ++ rest) with ((b5 :: body) ++ rest).
  rewrite take_app_length, drop_app_length.
  destruct (Z.ltb_spec (len (b5 :: body)) (byte_val b4 + 1)); [lia|].
  reflexivity.
Qed.

(** X12. When a chunk arrives on an idle reader that starts with a whole
    frame (five header bytes, then as many bytes as the fifth says, plus
    one), [_read_response] returns exactly that frame, whatever its first and
    last bytes are, and leaves the bytes behind it buffered for the next
    read; nothing else of the session changes. *)
Theorem read_response_frame
    (s : Session) (b0 b1 b2 b3 b4 : byte) (body rest : bytes) (evs : list event) :
  _reader s =
    Some (mkReader [] false
            (Arrive (b0 :: b1 :: b2 :: b3 :: b4 :: body ++ rest) :: evs)) ->
  len body = byte_val b4 + 1 ->
  _read_response s =
  (Ok (b0 :: b1 :: b2 :: b3 :: b4 :: body),
   set_reader (Some (mkReader rest false evs)) s).
Proof. exact (read_whole_frame s b0 b1 b2 b3 b4 body rest evs). Qed.

Lemma read_response_frame_witness :
  _read_response garbled_session =
  (Ok garbled_frame,
   set_reader (Some (mkReader [] false [Arrive volume_frame])) garbled_session).
Proof.
  exact (read_response_frame garbled_session x21 x01 x0d x00 x01 [x32; xff] []
           [Arrive volume_frame] eq_refl eq_refl).
Defined.

(** X13. What [_read_response] does with the first event on an idle reader
    when that event is not a whole header: a chunk of fewer than 5 bytes is
    not waited on but reported as an incomplete header of that many bytes,
    and its bytes are gone; end of file is an incomplete header of 0 bytes;
    silence is a timeout and a reset an [OSError]. *)
Theorem read_response_short_header (s : Session) (first : event) (evs : list event) :
  _reader s = Some (mkReader [] false (first :: evs)) ->
  match first with
  | Arrive chunk =>
      chunk <> [] -> len chunk < 5 ->
      _read_response s =
      (Raise (ArcamProtocolError (IncompleteHeader (len chunk))),
       set_reader (Some (mkReader [] false evs)) s)
  | Eof =>
      _read_response s =
      (Raise (ArcamProtocolError (IncompleteHeader 0)),
       set_reader (Some (mkReader [] true evs)) s)
  | Stall =>
      _read_response s =
      (Raise TimeoutError, set_reader (Some (mkReader [] false evs)) s)
  | Reset =>
      _read_response s =
      (Raise OSError, set_reader (Some (mkReader [] false evs)) s)
  end.
Proof.
  intros Hr. destruct first as [chunk| | |].
  - intros Hne Hlen. unfold _read_response. rewrite Hr.
    unfold mbind, M_bind, raise.
    rewrite (reader_read_at 5 s _ Hr), read_arrive by (lia || assumption).
    cbn [fst snd]. change (Z.to_nat 5) with 5%nat.
    assert (length chunk < 5)%nat as Hl by (unfold len in Hlen; lia).
    rewrite take_ge, drop_ge by lia.
    destruct (Z.ltb_spec (len chunk) 5); [reflexivity|lia].
  - unfold _read_response. rewrite Hr. unfold mbind, M_bind, raise.
    rewrite (reader_read_at 5 s _ Hr). reflexivity.
  - unfold _read_response. rewrite Hr. unfold mbind, M_bind, raise.
    rewrite (reader_read_at 5 s _ Hr). reflexivity.
  - unfold _read_response. rewrite Hr. unfold mbind, M_bind, raise.
    rewrite (reader_read_at 5 s _ Hr). reflexivity.
Qed.

Lemma read_response_short_header_witness :
  _read_response (live_session [Arrive [x21; x01]; Arrive [x00; x00; x00; x0d]]) =
  (Raise (ArcamProtocolError (IncompleteHeader 2)),
   set_reader (Some (mkReader [] false [Arrive [x00; x00; x00; x0d]]))
     (live_session [Arrive [x21; x01]; Arrive [x00; x00; x00; x0d]])).
Proof.
  refine (read_response_short_header
            (live_session [Arrive [x21; x01]; Arrive [x00; x00; x00; x0d]])
            (Arrive [x21; x01]) [Arrive [x00; x00; x00; x0d]] eq_refl _ _).
  - discriminate.
  - reflexivity.
Defined.

(** X14. A chunk that holds the header and only part of the payload it
    announces is not completed by a further read: [_read_response] reports
    an incomplete response, expected against received byte count, and the
    partial frame is gone from the reader. *)
Theorem read_response_short_body
    (s : Session) (b0 b1 b2 b3 b4 p : byte) (part : bytes) (evs : list event) :
  _reader s =
    Some (mkReader [] false (Arrive (b0 :: b1 :: b2 :: b3 :: b4 :: p :: part) :: evs)) ->
  len (p :: part) < byte_val b4 + 1 ->
  _read_response s =
  (Raise (ArcamProtocolError
            (IncompleteResponse (byte_val b4 + 1) (len (p :: part)))),
   set_reader (Some (mkReader [] false evs)) s).
Proof.
  intros Hr Hlen. pose proof (byte_val_range b4) as Hb.
  unfold _read_response. rewrite Hr.
  unfold mbind, M_bind, mret, M_ret, raise, lift.
  rewrite (reader_read_at 5 s _ Hr), read_arrive by (lia || discriminate).
  cbn [fst snd]. change (Z.to_nat 5) with 5%nat. change (take 5 (b0 :: b1 :: b2 :: b3 :: b4 :: p :: part))
    with [b0; b1; b2; b3; b4].
  change (drop 5 (b0 :: b1 :: b2 :: b3 :: b4 :: p :: part)) with (p :: part).
  change (len [b0; b1; b2; b3; b4] <? 5) with false.
  change (py_index [b0; b1; b2; b3; b4] 4) with (Ok (byte_val b4)).
  cbv beta iota zeta.
  rewrite Z.gtb_ltb. destruct (Z.ltb_spec 0 (byte_val b4 + 1)); [|lia].
  rewrite (reader_read_at _ _ (mkReader (p :: part) false evs)) by reflexivity.
  rewrite read_buffered by lia. cbn [fst snd].
  assert (length (p :: part) < Z.to_nat (byte_val b4 + 1))%nat as Hl
    by (unfold len in Hlen; lia).
  rewrite take_ge, drop_ge by lia.
  destruct (Z.ltb_spec (len (p :: part)) (byte_val b4 + 1)); [reflexivity|lia].
Qed.

Lemma read_response_short_body_witness :
  _read_response (live_session [Arrive [x21; x01; x04; x00; x0c; x31; x2e]]) =
  (Raise (ArcamProtocolError (IncompleteResponse 13 2)),
   set_reader (Some (mkReader [] false []))
     (live_session [Arrive [x21; x01; x04; x00; x0c; x31; x2e]])).
Proof.
  exact (read_response_short_body
           (live_session [Arrive [x21; x01; x04; x00; x0c; x31; x2e]])
           x21 x01 x04 x00 x0c x31 [x2e] [] eq_refl ltac:(reflexivity)).
Defined.

Lemma io_only_refl (s : Session) : io_only s s.
Proof. repeat split. Qed.

Lemma io_only_trans (s1 s2 s3 : Session) :
  io_only s1 s2 -> io_only s2 s3 -> io_only s1 s3.
Proof.
  unfold io_only. intros H1 H2.
  destruct H1 as (?&?&?&?&?&?&?&?&?), H2 as (?&?&?&?&?&?&?&?&?).
  repeat split; congruence.
Qed.

Lemma io_only_add_log (r : log_record) (s : Session) : io_only s (add_log r s).
Proof. repeat split. Qed.

Lemma io_only_set_reader (r : option StreamReader) (s : Session) :
  io_only s (set_reader r s).
Proof. repeat split. Qed.

Lemma io_only_set_writer (w : option StreamWriter) (s : Session) :
  io_only s (set_writer w s).
Proof. repeat split. Qed.

Lemma reader_only_io (s s' : Session) : reader_only s s' -> io_only s s'.
Proof. intros [ro ->]. apply io_only_set_reader. Qed.

Lemma await_data_exn (evs evs' : list event) (e : exn) :
  await_data evs = (Raise e, evs') -> e = TimeoutError \/ e = OSError.
Proof.
  induction evs as [|[[|b bs]| | |] evs IH]; cbn [await_data];
    try (intros [= <- _]; auto); try discriminate.
  exact IH.
Qed.

Lemma reader_read_exn (n : Z) (s s' : Session) (e : exn) :
  reader_read n s = (Raise e, s') ->
  e = TimeoutError \/ e = OSError \/ e = AttributeError.
Proof.
  unfold reader_read. destruct (_reader s) as [r|]; [|intros [= <- _]; auto].
  unfold read. destruct (n =? 0); [discriminate|].
  destruct (buffer r); [destruct (eof r)|destruct (eof r)]; try discriminate.
  destruct (await_data (incoming r)) as [[[bs b]|e'] evs] eqn:E; [discriminate|].
  intros [= <- _]. apply await_data_exn in E. tauto.
Qed.

Lemma _read_response_exn (s s' : Session) (e : exn) :
  _read_response s = (Raise e, s') -> body_exn e = true.
Proof.
  unfold _read_response. destruct (_reader s) as [r|];
    [|intros [= <- _]; reflexivity].
  unfold mbind, M_bind, mret, M_ret, raise, lift.
  destruct (reader_read 5 s) as [[header|e1] s1] eqn:E1.
  2:{ intros [= <- _]. apply reader_read_exn in E1 as [->|[->| ->]]; reflexivity. }
  destruct (len header <? 5); [intros [= <- _]; reflexivity|].
  unfold py_index.
  destruct (_ || _); [intros [= <- _]; reflexivity|].
  destruct (header !! _); [|intros [= <- _]; reflexivity].
  cbv beta iota zeta.
  destruct (_ >? 0).
  - destruct (reader_read _ s1) as [[body|e2] s2] eqn:E2.
    + destruct (len body <? _); [intros [= <- _]; reflexivity|discriminate].
    + intros [= <- _]. apply reader_read_exn in E2 as [->|[->| ->]]; reflexivity.
  - destruct (reader_read 1 s1) as [[body|e2] s2] eqn:E2.
    + destruct (len body <? 1); [intros [= <- _]; reflexivity|discriminate].
    + intros [= <- _]. apply reader_read_exn in E2 as [->|[->| ->]]; reflexivity.
Qed.

Lemma encode_command_exn (c : ArcamCommand) (e : exn) :
  encode_command c = Raise e -> exists v, e = ValueError (ByteOutOfRange v).
Proof.
  unfold encode_command. cbn [bytes_of_ints].
  unfold mbind, result_bind, mret, result_ret.
  change (byte_of_int START_BYTE) with (Ok "!"%byte).
  change (byte_of_int END_BYTE) with (Ok x0d).
  destruct (byte_of_int_cases (zone c)) as [(b & -> & _)|[-> _]];
    [|intros [= <-]; eauto].
  destruct (byte_of_int_cases (command_code c)) as [(b' & -> & _)|[-> _]];
    [|intros [= <-]; eauto].
  destruct (byte_of_int_cases (len (data c))) as [(b'' & -> & _)|[-> _]];
    [|intros [= <-]; eauto].
  discriminate.
Qed.

(** The [try] block of [send_command] changes only streams and log, and
    ends in no exception that its handlers produce. *)
Lemma send_command_body_io (c : ArcamCommand) (s s' : Session) (res : result ArcamResponse) :
  send_command_body c s = (res, s') ->
  io_only s s' /\ (forall e, res = Raise e -> body_exn e = true).
Proof.
  rewrite send_command_body_split. unfold send_and_read.
  unfold mbind, M_bind, lift, logging, modify, mret, M_ret.
  destruct (encode_command c) as [frame|e0] eqn:Eenc.
  2:{ intros [= <- <-]. split; [apply io_only_refl|].
      intros e [= <-]. apply encode_command_exn in Eenc as [v ->]. reflexivity. }
  set (s0 := add_log _ s).
  assert (io_only s s0) as H0 by apply io_only_add_log.
  unfold writer_write.
  destruct (_writer s0) as [w|] eqn:Ew.
  2:{ intros [= <- <-]. split; [exact H0|]. intros e [= <-]. reflexivity. }
  set (s1 := set_writer _ s0).
  assert (io_only s s1) as H1
    by (eapply io_only_trans; [exact H0|apply io_only_set_writer]).
  unfold writer_drain. destruct (_writer s1) as [w1|].
  2:{ intros [= <- <-]. split; [exact H1|]. intros e [= <-]. reflexivity. }
  destruct (broken w1).
  { intros [= <- <-]. split; [exact H1|]. intros e [= <-]. reflexivity. }
  destruct (_read_response s1) as [[bs|e1] s2] eqn:Er.
  2:{ intros [= <- <-]. split.
      - eapply io_only_trans; [exact H1|].
        apply reader_only_io. eapply _read_response_only. exact Er.
      - intros e [= <-]. eapply _read_response_exn. exact Er. }
  assert (io_only s s2) as H2.
  { eapply io_only_trans; [exact H1|].
    apply reader_only_io. eapply _read_response_only. exact Er. }
  destruct (decode_response bs) as [r|e2] eqn:Ed.
  2:{ intros [= <- <-]. split; [exact H2|]. intros e [= <-].
      apply decode_response_raises in Ed as [m ->]. reflexivity. }
  unfold validate_response.
  destruct (negb (r_command_code r =? command_code c)); cbn;
    intros [= <- <-]; (split; [|discriminate]);
    (eapply io_only_trans; [exact H2|]); repeat split.
Qed.

(** X15. How [send_command] ends. It never lets a bare timeout or [OSError]
    out, and a connection-lost task is created only together with an
    [ArcamTimeoutError] or the [ArcamConnectionError] of a failed command.
    Called on a session that is not connected it raises "not connected"
    and changes nothing. In every other case, success included, only the
    streams and the log can have changed; the connected flag is never
    touched by the call itself. In the other direction, on a connected
    session: when sending the command and reading the reply ends in a
    timeout, [send_command] logs it, creates one connection-lost task and
    raises [ArcamTimeoutError]; when it ends in an [OSError],
    [send_command] logs it, creates one connection-lost task and raises
    [ArcamConnectionError]; any other exception of that part is raised
    unchanged, with nothing logged and no task created. *)
Theorem send_command_outcomes (c : ArcamCommand) (s : Session) :
  match send_command c s with
  | (Raise TimeoutError, _) | (Raise OSError, _) => False
  | (Raise (ArcamTimeoutError _), s')
  | (Raise (ArcamConnectionError ConnectionErrorDuringCommand), s') =>
      is_connected s = true /\
      exists s1, io_only s s1 /\ s' = create_task HandleConnectionLost s1
  | (Raise (ArcamConnectionError NotConnected), s') =>
      is_connected s = false /\ s' = s
  | (_, s') => is_connected s = true /\ io_only s s'
  end /\
  (if is_connected s then
     match send_and_read c s with
     | (Raise TimeoutError, s1) =>
         send_command c s =
         (Raise (ArcamTimeoutError CommandTimeout),
          create_task HandleConnectionLost
            (add_log (ERROR, CommandTimeoutAfter) s1))
     | (Raise OSError, s1) =>
         send_command c s =
         (Raise (ArcamConnectionError ConnectionErrorDuringCommand),
          create_task HandleConnectionLost
            (add_log (ERROR, ConnectionErrorDuring OSError) s1))
     | (Raise e, s1) => send_command c s = (Raise e, s1)
     | (Ok _, _) => True
     end
   else send_command c s = (Raise (ArcamConnectionError NotConnected), s)).
Proof.
  split.
  - unfold send_command. destruct (is_connected s) eqn:Hc; cbn [negb]; [|auto].
    destruct (send_command_body c s) as [[r|e] s'] eqn:Hb;
      apply send_command_body_io in Hb as [Hio Hexn]; [auto|].
    specialize (Hexn e eq_refl).
    destruct e as [m|m|m|m| | | |]; try (split; [reflexivity|exact Hio]);
      try discriminate.
    + destruct m; try discriminate. split; [reflexivity|exact Hio].
    + split; [reflexivity|]. eexists. split; [|reflexivity].
      eapply io_only_trans; [exact Hio|apply io_only_add_log].
    + split; [reflexivity|]. eexists. split; [|reflexivity].
      eapply io_only_trans; [exact Hio|apply io_only_add_log].
  - unfold send_command. destruct (is_connected s); cbn [negb]; [|reflexivity].
    rewrite send_command_body_split.
    destruct (send_and_read c s) as [[bs|e] s1]; [exact I|].
    destruct e; reflexivity.
Qed.

(** A reply that never comes, and a writer whose peer is gone. *)
Example send_command_timeout :
  (send_command (mkArcamCommand 1 POWER [xf0]) (live_session [Stall])).1 =
  Raise (ArcamTimeoutError CommandTimeout) /\
  created_tasks
    (send_command (mkArcamCommand 1 POWER [xf0]) (live_session [Stall])).2 =
  [HandleConnectionLost].
Proof. vm_compute. auto. Qed.

Example send_command_reset :
  (send_command (mkArcamCommand 1 POWER [xf0]) (live_session [Reset])).1 =
  Raise (ArcamConnectionError ConnectionErrorDuringCommand) /\
  created_tasks
    (send_command (mkArcamCommand 1 POWER [xf0]) (live_session [Reset])).2 =
  [HandleConnectionLost].
Proof. vm_compute. auto. Qed.

(** X16. A reply that cannot be read or decoded is the caller's to see: when
    the bytes [send_command] read fail to decode, or the read itself ends
    in a protocol error, that protocol error is what [send_command] raises;
    no connection-lost task is created and the session is left as the read
    left it. *)
Theorem send_command_surfaces_protocol_error (c : ArcamCommand) (s : Session) :
  is_connected s = true ->
  (forall bs s1 e,
      send_and_read c s = (Ok bs, s1) ->
      decode_response bs = Raise e ->
      send_command c s = (Raise e, s1) /\
      exists m, e = ArcamProtocolError m) /\
  (forall m s1,
      send_and_read c s = (Raise (ArcamProtocolError m), s1) ->
      send_command c s = (Raise (ArcamProtocolError m), s1)).
Proof.
  intros Hc. split.
  - intros bs s1 e Hread Hdec.
    destruct (decode_response_raises bs e Hdec) as [m ->].
    split; [|eauto]. unfold send_command. rewrite Hc. cbn [negb].
    rewrite send_command_body_split, Hread.
    unfold mbind, M_bind, lift. rewrite Hdec. reflexivity.
  - intros m s1 Hread. unfold send_command. rewrite Hc. cbn [negb].
    rewrite send_command_body_split, Hread. reflexivity.
Qed.

Lemma send_command_surfaces_protocol_error_witness :
  (send_command (mkArcamCommand 1 VOLUME [xf0]) garbled_session).1 =
  Raise (ArcamProtocolError (InvalidEndByte 255)).
Proof.
  refine (f_equal fst (proj1 (proj1 (send_command_surfaces_protocol_error
            (mkArcamCommand 1 VOLUME [xf0]) garbled_session eq_refl)
            garbled_frame
            (send_and_read (mkArcamCommand 1 VOLUME [xf0]) garbled_session).2
            (ArcamProtocolError (InvalidEndByte 255)) _ _))).
  - vm_compute. reflexivity.
  - vm_compute. reflexivity.
Defined.

(** X17. A whole exchange. On a connected session with a healthy writer,
    sending a command the constructor accepts, when the device's reply
    arrives as one chunk holding a well-formed response frame with the
    command's operation code: [send_command] returns the response with the
    frame's zone, status and payload; exactly the command's encoding has
    been appended to the writer, exactly the frame has been taken from the
    reader (what followed it stays buffered), the log has the two debug
    records, and no task is created. *)
Theorem send_command_exchange
    (s : Session) (z cc : Z) (d out payload rest : bytes) (c : ArcamCommand)
    (bz bc ba bl : byte) (evs : list event) :
  ArcamCommand_new z cc d = Ok c ->
  _connected s = true ->
  _writer s = Some (mkWriter false out false) ->
  _reader s =
    Some (mkReader [] false
            (Arrive ("!"%byte :: bz :: bc :: ba :: bl :: payload ++ [x0d] ++ rest)
               :: evs)) ->
  byte_val bl = len payload ->
  byte_val bc = cc ->
  exists frame,
    encode_command c = Ok frame /\
    let r := mkArcamResponse (byte_val bz) cc (byte_val ba) payload in
    send_command c s =
    (Ok r,
     add_log (DEBUG, ReceivedResponse r)
       (set_reader (Some (mkReader rest false evs))
          (set_writer (Some (mkWriter false (out ++ frame) false))
             (add_log (DEBUG, SendingCommand c) s)))).
Proof.
  intros Hnew Hconn Hw Hr Hbl Hcode.
  apply ArcamCommand_new_Ok in Hnew as (Hz & Hcc & Hd & ->).
  destruct (encode_command_valid z cc d) as (ez & ec & el & _ & _ & _ & Henc);
    [lia..|].
  eexists. split; [exact Henc|]. cbv zeta.
  unfold send_command, is_connected. rewrite Hconn, Hw. cbn [negb andb is_closing].
  unfold send_command_body. unfold mbind at 1. unfold M_bind at 1.
  unfold lift at 1. rewrite Henc.
  unfold mbind at 1. unfold M_bind at 1. unfold logging, modify at 1.
  set (s0 := add_log (DEBUG, SendingCommand _) s).
  unfold mbind at 1. unfold M_bind at 1. unfold writer_write.
  assert (_writer s0 = Some (mkWriter false out false)) as -> by exact Hw.
  cbn [is_closing written broken].
  set (s1 := set_writer _ s0).
  unfold mbind at 1. unfold M_bind at 1. unfold writer_drain.
  assert (_writer s1 = Some (mkWriter false (out ++ "!"%byte :: ez :: ec :: el :: d ++ [x0d]) false))
    as -> by reflexivity.
  cbn [broken].
  unfold mbind at 1. unfold M_bind at 1.
  assert (_reader s1 =
          Some (mkReader [] false
                  (Arrive ("!"%byte :: bz :: bc :: ba :: bl :: (payload ++ [x0d]) ++ rest)
                     :: evs))) as Hr1.
  { rewrite <- app_assoc. exact Hr. }
  rewrite (read_whole_frame s1 _ _ _ _ _ _ _ _ Hr1)
    by (unfold len in *; rewrite length_app; cbn [length]; lia).
  unfold mbind at 1. unfold M_bind at 1. unfold lift at 1.
  rewrite (decode_response_frame bz bc ba bl payload Hbl).
  unfold validate_response. cbn [r_command_code command_code].
  rewrite Hcode, Z.eqb_refl. cbn [negb].
  reflexivity.
Qed.

Lemma send_command_exchange_witness :
  (send_command (mkArcamCommand 1 VOLUME [xf0])
     (live_session [Arrive (volume_frame ++ [x21])])).1 =
  Ok (mkArcamResponse 1 VOLUME 0 ["2"%byte]).
Proof.
  destruct (send_command_exchange
              (live_session [Arrive (volume_frame ++ [x21])])
              1 VOLUME [xf0] [] ["2"%byte] [x21]
              (mkArcamCommand 1 VOLUME [xf0]) x01 x0d x00 x01 []
              eq_refl eq_refl eq_refl eq_refl eq_refl eq_refl)
    as (frame & _ & H).
  cbv zeta in H. rewrite H. reflexivity.
Defined.

Lemma reader_only_wire (s s' : Session) : reader_only s s' -> wire s' = wire s.
Proof. intros [ro ->]. reflexivity. Qed.

(** X18. What [send_command] puts on the wire: on a connected session exactly
    the encoding of the command, once, whether or not a reply follows; on a
    session that is not connected, or for a command that does not encode,
    nothing. *)
Theorem send_command_wire (c : ArcamCommand) (s : Session) :
  wire (send_command c s).2 =
  wire s ++
  (if is_connected s then
     match encode_command c with
     | Ok frame => frame
     | Raise _ => []
     end
   else []).
Proof.
  unfold send_command. destruct (is_connected s) eqn:Hc; cbn [negb];
    [|cbn [snd]; rewrite app_nil_r; reflexivity].
  assert (wire (send_command_body c s).2 =
          wire s ++ match encode_command c with Ok frame => frame | Raise _ => [] end)
    as Hbody.
  { rewrite send_command_body_split. unfold send_and_read.
    unfold mbind, M_bind, lift, logging, modify, mret, M_ret.
    destruct (encode_command c) as [frame|e0];
      [|cbn [snd]; rewrite app_nil_r; reflexivity].
    unfold is_connected in Hc. apply andb_prop in Hc as [_ Hw].
    unfold writer_write, writer_drain. cbn [_writer add_log set_writer].
    destruct (_writer s) as [w|] eqn:Ew; [|discriminate].
    cbn -[_read_response decode_response validate_response wire add_log set_writer].
    set (s1 := set_writer _ _).
    assert (wire s1 = wire s ++ frame) as H1 by (unfold wire; rewrite Ew; reflexivity).
    assert (_writer s1 =
            Some (mkWriter (is_closing w) (written w ++ frame) (broken w))) as ->
      by reflexivity.
    cbn [broken]. destruct (broken w); [exact H1|]. cbv beta iota zeta.
    destruct (_read_response s1) as [[bs|e1] s2] eqn:Er;
      apply _read_response_only, reader_only_wire in Er;
      [|exact (eq_trans Er H1)].
    destruct (decode_response bs) as [r|e2]; [|exact (eq_trans Er H1)].
    unfold validate_response.
    destruct (negb (r_command_code r =? command_code c)); cbn; exact (eq_trans Er H1). }
  destruct (send_command_body c s) as [[r|e] s'] eqn:Hb; cbn [snd] in *;
    [exact Hbody|].
  destruct e; cbn [snd]; exact Hbody.
Qed.

(** X19. Handling a connection loss leaves the session disconnected and is
    idempotent: a second handling changes nothing, so at most one
    reconnection task results, and none when one is already running or the
    session was not marked connected. A command sent afterwards fails at
    once with "not connected" and touches nothing. *)
Theorem handle_connection_lost_once (s : Session) (c : ArcamCommand) :
  let s1 := (_handle_connection_lost s).2 in
  (_handle_connection_lost s).1 = Ok tt /\
  _connected s1 = false /\
  _handle_connection_lost s1 = (Ok tt, s1) /\
  created_tasks s1 =
    created_tasks s ++
    (if _connected s then
       match _reconnect_task s with
       | Some Running => []
       | _ => [ReconnectWithBackoff]
       end
     else []) /\
  _reconnect_task s1 =
    (if _connected s then Some Running else _reconnect_task s) /\
  send_command c s1 = (Raise (ArcamConnectionError NotConnected), s1).
Proof.
  cbv zeta. unfold _handle_connection_lost.
  destruct (_connected s) eqn:Hc; cbn [negb].
  - destruct (_reconnect_task s) as [[|]|] eqn:Ht; cbn [fst snd];
      cbn [_connected _reconnect_task created_tasks add_log set_connected
           set_reconnect_task create_task negb]; rewrite ?Ht;
      repeat split; try (rewrite app_nil_r; reflexivity); try exact Ht.
  - cbn [fst snd]. rewrite Hc. cbn [negb].
    repeat split; try (rewrite app_nil_r; reflexivity); try discriminate.
    unfold send_command, is_connected. rewrite Hc. reflexivity.
Qed.

(** A frame that decodes is read whole when it arrives as one chunk. *)
Lemma read_response_decodable
    (s : Session) (f : bytes) (r : ArcamResponse) (evs : list event) :
  _reader s = Some (mkReader [] false (Arrive f :: evs)) ->
  decode_response f = Ok r ->
  _read_response s = (Ok f, set_reader (Some (mkReader [] false evs)) s).
Proof.
  intros Hr Hdec.
  destruct (decode_response_shape f r Hdec) as (bz & bc & ba & bl & -> & _ & _ & _ & Hl).
  assert (_reader s =
          Some (mkReader [] false
                  (Arrive ("!"%byte :: bz :: bc :: ba :: bl :: (r_data r ++ [x0d]) ++ [])
                     :: evs))) as Hr'
    by (rewrite app_nil_r; exact Hr).
  apply (read_whole_frame s _ _ _ _ _ _ _ _ Hr').
  unfold len in *. rewrite length_app. cbn [length]. lia.
Qed.

(** One pass of the listener over a frame that arrives whole and decodes. *)
Lemma listener_iteration_frame
    (s : Session) (f : bytes) (r : ArcamResponse) (evs : list event) :
  _reader s = Some (mkReader [] false (Arrive f :: evs)) ->
  decode_response f = Ok r ->
  let s1 := add_log (DEBUG, ReceivedBroadcast r)
              (set_reader (Some (mkReader [] false evs)) s) in
  listener_iteration s =
  match _broadcast_callback s with
  | None => (Continue, s1)
  | Some callback =>
      match callback r with
      | None | Some TimeoutError => (Continue, deliver r s1)
      | Some e => (Break, add_log (DEBUG, BroadcastListenerError e) (deliver r s1))
      end
  end.
Proof.
  intros Hr Hdec. cbv zeta.
  unfold listener_iteration, listener_try. rewrite Hr.
  change (at_eof _) with false. cbv iota.
  unfold mbind at 1. unfold M_bind at 1.
  rewrite (read_response_decodable s f r evs Hr Hdec).
  unfold mbind at 1. unfold M_bind at 1. unfold lift at 1. rewrite Hdec.
  unfold mbind, M_bind, mret, M_ret, logging, modify, invoke_callback.
  cbn [_broadcast_callback add_log set_reader].
  destruct (_broadcast_callback s) as [cb|]; [|reflexivity].
  destruct (cb r) as [[]|]; reflexivity.
Qed.

(** X20. What the listener does with a frame that arrives whole and decodes:
    the frame is taken from the reader and logged; without a callback that
    is all and the loop goes on; with one, the callback receives the
    response, and the loop goes on when the callback returns or raises a
    timeout, and ends, with the error logged, when it raises anything else. *)
Theorem listener_on_frame
    (s : Session) (f : bytes) (r : ArcamResponse) (evs : list event) :
  _reader s = Some (mkReader [] false (Arrive f :: evs)) ->
  decode_response f = Ok r ->
  let s1 := add_log (DEBUG, ReceivedBroadcast r)
              (set_reader (Some (mkReader [] false evs)) s) in
  listener_iteration s =
  match _broadcast_callback s with
  | None => (Continue, s1)
  | Some callback =>
      match callback r with
      | None | Some TimeoutError => (Continue, deliver r s1)
      | Some e => (Break, add_log (DEBUG, BroadcastListenerError e) (deliver r s1))
      end
  end.
Proof. exact (listener_iteration_frame s f r evs). Qed.

Lemma listener_on_frame_witness :
  listener_iteration (live_session [Arrive volume_frame]) =
  (Continue,
   deliver (mkArcamResponse 1 VOLUME 0 ["2"%byte])
     (add_log (DEBUG, ReceivedBroadcast (mkArcamResponse 1 VOLUME 0 ["2"%byte]))
        (set_reader (Some (mkReader [] false []))
           (live_session [Arrive volume_frame])))).
Proof.
  exact (listener_on_frame (live_session [Arrive volume_frame]) volume_frame
           (mkArcamResponse 1 VOLUME 0 ["2"%byte]) [] eq_refl eq_refl).
Defined.

(** X21. Frames that arrive one per chunk and all decode are handed to a
    callback that accepts them one by one, in the order of arrival: after as
    many passes as there are frames the listener has delivered exactly
    their responses, logged each, emptied the reader of them, and carries
    on from there with whatever comes next. *)
Theorem listener_delivers_in_order
    (frames : list bytes) (responses : list ArcamResponse)
    (callback : ArcamResponse -> option exn) (evs : list event) :
  Forall2 (fun f r => decode_response f = Ok r) frames responses ->
  (forall r, callback r = None) ->
  forall (s : Session) (k : nat),
    is_connected s = true ->
    _broadcast_callback s = Some callback ->
    _reader s = Some (mkReader [] false ((Arrive <$> frames) ++ evs)) ->
    exists s',
      listener_loop (length frames + k) s = listener_loop k s' /\
      delivered s' = delivered s ++ responses /\
      log s' = log s ++ ((fun r => (DEBUG, ReceivedBroadcast r)) <$> responses) /\
      _reader s' = Some (mkReader [] false evs) /\
      is_connected s' = true /\
      _broadcast_callback s' = Some callback.
Proof.
  intros Hdec Hcb. induction Hdec as [|f r frames responses Hf _ IH];
    intros s k Hconn Hcall Hr.
  - exists s. cbn. rewrite !app_nil_r. repeat split; assumption.
  - cbn [fmap list_fmap app] in Hr.
    pose proof (listener_iteration_frame s f r _ Hr Hf) as Hit.
    cbv zeta in Hit. rewrite Hcall, Hcb in Hit.
    set (s1 := deliver r _) in Hit.
    destruct (IH s1 k) as (s' & Hloop & Hd & Hl & Hrd & Hc' & Hcb');
      [exact Hconn|exact Hcall|reflexivity|].
    exists s'. split; [|split; [|split; [|auto]]].
    + cbn [length Nat.add listener_loop]. rewrite Hconn, Hit. exact Hloop.
    + rewrite Hd. cbn. rewrite <- app_assoc. reflexivity.
    + rewrite Hl. cbn. rewrite <- app_assoc. reflexivity.
Qed.

Lemma listener_delivers_in_order_witness :
  exists s',
    listener_loop (2 + 1) (live_session [Arrive volume_frame; Arrive volume_frame; Eof])
    = listener_loop 1 s' /\
    delivered s' =
      [mkArcamResponse 1 VOLUME 0 ["2"%byte]; mkArcamResponse 1 VOLUME 0 ["2"%byte]].
Proof.
  destruct (listener_delivers_in_order [volume_frame; volume_frame]
              [mkArcamResponse 1 VOLUME 0 ["2"%byte];
               mkArcamResponse 1 VOLUME 0 ["2"%byte]]
              idle_callback [Eof]
              ltac:(repeat constructor) ltac:(reflexivity)
              (live_session [Arrive volume_frame; Arrive volume_frame; Eof]) 1%nat
              eq_refl eq_refl eq_refl)
    as (s' & H1 & H2 & _).
  exists s'. split; [exact H1|exact H2].
Defined.

(** X22. The backoff loop from any counter value [a] in 0..5, on a session
    marked disconnected: it terminates after [n <= 5 - a] attempts, having
    slept the delays of the attempts numbered [a+1 .. a+n] and consumed [n]
    connection outcomes; it ends connected with the counter at zero, or
    disconnected with the counter at the maximum after using up all
    [5 - a] attempts. With the counter already at the maximum it makes no
    attempt at all: it only logs that it gives up. *)
Theorem reconnect_from_counter (s : Session) :
  _connected s = false ->
  0 <= _reconnect_attempts s <= MAX_RECONNECT_ATTEMPTS ->
  exists s' (n : nat),
    _reconnect_with_backoff s = Some (Ok tt, s') /\
    Z.of_nat n <= MAX_RECONNECT_ATTEMPTS - _reconnect_attempts s /\
    slept s' =
      slept s ++
      (backoff_delay <$> seqZ (_reconnect_attempts s + 1) (Z.of_nat n)) /\
    network s' = drop n (network s) /\
    ((_connected s' = true /\ _reconnect_attempts s' = 0 /\ (1 <= n)%nat) \/
     (_connected s' = false /\
      _reconnect_attempts s' = MAX_RECONNECT_ATTEMPTS /\
      Z.of_nat n = MAX_RECONNECT_ATTEMPTS - _reconnect_attempts s)) /\
    (if _reconnect_attempts s =? MAX_RECONNECT_ATTEMPTS
     then s' = add_log (ERROR, MaxReconnectionAttemptsReached) s
     else (1 <= n)%nat).
Proof.
  intros Hc Ha.
  destruct (reconnect_loop_spec
              (Z.to_nat (MAX_RECONNECT_ATTEMPTS - _reconnect_attempts s)) s Hc Ha)
    as (s' & n & Hrun & Hspec); [lia|].
  unfold backoff_run in Hspec. cbv zeta in Hspec.
  destruct Hspec as (Hle & Hslept & Hnet & Hend).
  exists s', n. split; [exact Hrun|]. split; [exact Hle|].
  split; [exact Hslept|]. split; [exact Hnet|]. split.
  - destruct Hend as [(H1 & H2 & H3 & _)|(H1 & H2 & H3 & _)]; [left|right]; auto.
  - destruct (Z.eqb_spec (_reconnect_attempts s) MAX_RECONNECT_ATTEMPTS) as [E|E].
    + unfold _reconnect_with_backoff in Hrun.
      rewrite reconnect_loop_exhausted in Hrun by lia. congruence.
    + destruct Hend as [(_ & _ & H3 & _)|(_ & _ & H3 & _)]; lia.
Qed.

Lemma reconnect_from_counter_witness :
  exists s',
    _reconnect_with_backoff (set_reconnect_attempts 3 (lost_session [])) =
    Some (Ok tt, s') /\
    slept s' = [8; 16].
Proof.
  destruct (reconnect_from_counter (set_reconnect_attempts 3 (lost_session []))
              eq_refl ltac:(cbn; unfold MAX_RECONNECT_ATTEMPTS; lia))
    as (s' & n & Hrun & _).
  exists s'. split; [exact Hrun|].
  vm_compute in Hrun. injection Hrun as <-. reflexivity.
Defined.

(** The listener bookkeeping of a run of the backoff loop. *)
Lemma reconnect_loop_listener (fuel : nat) : forall s : Session,
  _connected s = false ->
  0 <= _reconnect_attempts s <= MAX_RECONNECT_ATTEMPTS ->
  MAX_RECONNECT_ATTEMPTS - _reconnect_attempts s <= Z.of_nat fuel ->
  exists s',
    reconnect_loop fuel s = Some (Ok tt, s') /\
    _broadcast_callback s' = _broadcast_callback s /\
    delivered s' = delivered s /\
    ((_connected s' = true /\
      created_tasks s' =
        created_tasks s ++
        match _broadcast_callback s with
        | Some _ => [BroadcastListener]
        | None => []
        end /\
      _broadcast_task s' =
        match _broadcast_callback s with
        | Some _ => Some Running
        | None => _broadcast_task s
        end)
     \/
     (_connected s' = false /\
      created_tasks s' = created_tasks s /\
      _broadcast_task s' = _broadcast_task s)).
Proof.
  assert (forall fuel s,
            _connected s = false ->
            MAX_RECONNECT_ATTEMPTS <= _reconnect_attempts s ->
            exists s',
              reconnect_loop fuel s = Some (Ok tt, s') /\
              _broadcast_callback s' = _broadcast_callback s /\
              delivered s' = delivered s /\
              ((_connected s' = true /\
                created_tasks s' =
                  created_tasks s ++
                  match _broadcast_callback s with
                  | Some _ => [BroadcastListener]
                  | None => []
                  end /\
                _broadcast_task s' =
                  match _broadcast_callback s with
                  | Some _ => Some Running
                  | None => _broadcast_task s
                  end)
               \/
               (_connected s' = false /\
                created_tasks s' = created_tasks s /\
                _broadcast_task s' = _broadcast_task s))) as Hstop.
  { intros f s Hc Ha. eexists.
    split; [apply reconnect_loop_exhausted; lia|].
    split; [reflexivity|]. split; [reflexivity|]. right. auto. }
  induction fuel as [|fuel IH]; intros s Hc Ha Hfuel.
  - apply Hstop; [assumption|lia].
  - destruct (Z.ltb_spec (_reconnect_attempts s) MAX_RECONNECT_ATTEMPTS) as [Hlt|Hge];
      [|apply Hstop; [assumption|lia]].
    rewrite (reconnect_loop_step fuel s Hc Hlt). cbv zeta.
    rewrite connect_disconnected by exact Hc. cbv zeta.
    cbn [network sleep add_log set_reconnect_attempts].
    destruct (network s) as [|[r w| |] rest] eqn:Hnet.
    + edestruct IH as (s' & Hrun & Hspec); cycle 3.
      * exists s'. split; [exact Hrun|exact Hspec].
      * exact Hc.
      * cbn. lia.
      * cbn. lia.
    + cbn [_broadcast_callback add_log set_reconnect_attempts set_connected
           set_writer set_reader set_network sleep].
      destruct (_broadcast_callback s) as [cb|] eqn:Hcb;
        (eexists; split; [reflexivity|]; split; [exact Hcb|];
         split; [reflexivity|]; left; repeat split;
         cbn; rewrite ?app_nil_r; reflexivity).
    + edestruct IH as (s' & Hrun & Hspec); cycle 3.
      * exists s'. split; [exact Hrun|exact Hspec].
      * exact Hc.
      * cbn. lia.
      * cbn. lia.
    + edestruct IH as (s' & Hrun & Hspec); cycle 3.
      * exists s'. split; [exact Hrun|exact Hspec].
      * exact Hc.
      * cbn. lia.
      * cbn. lia.
Qed.

(** X23. A run of the backoff loop restarts the broadcast listener exactly
    when it reconnects and a callback is registered: then one listener task
    is created and recorded as the session's broadcast task. A run that
    gives up, or reconnects without a callback, creates no task. The
    callback itself is kept, and no response is delivered by the run. *)
Theorem reconnect_restarts_listener (s : Session) :
  _connected s = false ->
  0 <= _reconnect_attempts s <= MAX_RECONNECT_ATTEMPTS ->
  exists s',
    _reconnect_with_backoff s = Some (Ok tt, s') /\
    _broadcast_callback s' = _broadcast_callback s /\
    delivered s' = delivered s /\
    ((_connected s' = true /\
      created_tasks s' =
        created_tasks s ++
        match _broadcast_callback s with
        | Some _ => [BroadcastListener]
        | None => []
        end /\
      _broadcast_task s' =
        match _broadcast_callback s with
        | Some _ => Some Running
        | None => _broadcast_task s
        end)
     \/
     (_connected s' = false /\
      created_tasks s' = created_tasks s /\
      _broadcast_task s' = _broadcast_task s)).
Proof.
  intros Hc Ha. apply reconnect_loop_listener; [exact Hc|exact Ha|lia].
Qed.

Lemma reconnect_restarts_listener_witness :
  exists s',
    _reconnect_with_backoff
      (set_connected false (live_session []))
    = Some (Ok tt, s').
Proof.
  destruct (reconnect_restarts_listener (set_connected false (live_session []))
              eq_refl ltac:(cbn; unfold MAX_RECONNECT_ATTEMPTS; lia))
    as (s' & H & _).
  exists s'. exact H.
Defined.

Lemma decode_version_response_total (payload : bytes) :
  exists v, decode_version_response payload = Ok v.
Proof.
  unfold decode_version_response. destruct (negb _); [eauto|].
  destruct (decode_ascii payload); eauto.
Qed.

Lemma or_unknown_spec (v : option string) :
  or_unknown v <> ""%string /\
  (or_unknown v = "Unknown"%string \/ v = Some (or_unknown v)).
Proof. destruct v as [[|c v]|]; cbn; split; auto; discriminate. Qed.

(** X24. [get_device_info] never raises: whatever happens to the version
    query it sends, it returns a dictionary with the given host and port and
    the connection state after the query. When the query raised, the
    dictionary carries that error and the version "Unknown". When it was
    answered, there is no error entry, and the version is determined by the
    response: it is what [decode_version_response] makes of the payload
    when the response reports success and that text is not empty, and
    "Unknown" when the response reports a failure, or the payload decodes
    to nothing or to the empty text. The version is never the empty
    string. *)
Theorem get_device_info_never_raises (host : string) (port : Z) (s : Session) :
  let sent := send_command (mkArcamCommand 1 SOFTWARE_VERSION [xf0]) s in
  exists info,
    get_device_info host port s = (Ok info, sent.2) /\
    info_host info = host /\ info_port info = port /\
    info_connected info = is_connected sent.2 /\
    info_version info <> ""%string /\
    match sent.1 with
    | Ok r =>
        info_error info = None /\
        info_version info =
          (if is_success r then
             match decode_version_response (r_data r) with
             | Ok (Some (String c v)) => String c v
             | _ => "Unknown"%string
             end
           else "Unknown"%string)
    | Raise e =>
        info_error info = Some e /\ info_version info = "Unknown"%string
    end.
Proof.
  cbv zeta. unfold get_device_info, get_device_info_try.
  change (ArcamCommands.get_software_version 1)
    with (Ok (mkArcamCommand 1 SOFTWARE_VERSION [xf0])).
  unfold mbind at 1. unfold M_bind at 1. unfold lift at 1. cbv beta iota.
  unfold mbind at 1. unfold M_bind at 1.
  destruct (send_command (mkArcamCommand 1 SOFTWARE_VERSION [xf0]) s)
    as [[r|e] s'].
  - cbn [fst snd]. unfold mbind, M_bind, mret, M_ret, lift, read_is_connected.
    destruct (is_success r) eqn:Hs.
    + destruct (decode_version_response_total (r_data r)) as [v Hv]. rewrite Hv.
      eexists. split; [reflexivity|]. cbn.
      destruct (or_unknown_spec v) as [Hne _].
      repeat split; auto. destruct v as [[|c v]|]; reflexivity.
    + eexists. split; [reflexivity|]. cbn. repeat split; auto; discriminate.
  - cbn [fst snd]. eexists. split; [reflexivity|]. cbn.
    repeat split; auto; discriminate.
Qed.

(** A device that answers the version query with "1.2.3", and no connection. *)
Example device_info_version :
  (get_device_info "avr" 50000
     (live_session
        [Arrive [x21; x01; x04; x00; x0c; x31; x2e; x32; x2e; x33;
                 x00; x00; x00; x00; x00; x00; x00; x0d]])).1 =
  Ok (mkDeviceInfo "avr" 50000 "1.2.3" true None).
Proof. vm_compute. reflexivity. Qed.

Example device_info_offline :
  (get_device_info "avr" 50000 (lost_session [])).1 =
  Ok (mkDeviceInfo "avr" 50000 "Unknown" false
        (Some (ArcamConnectionError NotConnected))).
Proof. vm_compute. reflexivity. Qed.

(** * Properties of the callers: coordinator and media player *)

Lemma value_eqb_refl (v : value) : value_eqb v v = true.
Proof.
  destruct v as [|b|n|s]; cbn; [reflexivity|destruct b; reflexivity| |].
  - apply Z.eqb_refl.
  - apply String.eqb_refl.
Qed.

Lemma dict_eqb_refl (d : gmap string value) : dict_eqb d d = true.
Proof.
  unfold dict_eqb. rewrite bool_decide_eq_true_2 by reflexivity. cbn [andb].
  apply forallb_forall. intros [k v] Hin. cbn [fst snd].
  apply list_elem_of_In, elem_of_map_to_list in Hin. rewrite Hin.
  apply value_eqb_refl.
Qed.

Lemma decoders_by_length (payload : bytes) :
  (exists b, payload = [b]) \/
  (decode_power_response payload = Ok None /\
   decode_volume_response payload = Ok None /\
   decode_mute_response payload = Ok None /\
   decode_source_response payload = Ok None).
Proof.
  destruct (Z.eq_dec (len payload) 1) as [E|E].
  - left. apply len_single_iff. exact E.
  - right. unfold decode_power_response, decode_volume_response,
      decode_mute_response, decode_source_response.
    destruct (Z.eqb_spec (len payload) 1); [contradiction|]. repeat split.
Qed.

(** The last step of the handler: publish only a dictionary that differs. *)
Lemma publish_insert (d : gmap string value) (key : string) (v : value) :
  let d' := <[key := v]> d in
  (if negb (dict_eqb d' d) then Ok (Some d') else Ok None) = Ok None \/
  ((if negb (dict_eqb d' d) then Ok (Some d') else Ok None) = Ok (Some d') /\
   (if negb (dict_eqb (<[key := v]> d') d') then Ok (Some (<[key := v]> d'))
    else Ok None) = (Ok None : result (option (gmap string value)))).
Proof.
  cbv zeta. destruct (dict_eqb (<[key:=v]> d) d); cbn [negb]; [left; reflexivity|].
  right. split; [reflexivity|].
  rewrite insert_insert_eq, dict_eqb_refl. reflexivity.
Qed.

(** X25. The coordinator's broadcast handler never raises. It publishes new
    data only for a successful response with a 1-byte payload and one of the
    operation codes power, volume, mute and source, and then the new data is
    the old with exactly the one matching key set to the decoded value:
    "power" and "mute" to whether the byte is 0x01, "volume" to the byte,
    "source" to the name of the byte's code. Everything else, a failure
    response or missing data included, publishes nothing; and the same
    broadcast applied to the data it produced publishes nothing again. *)
Theorem broadcast_update_spec
    (data : option (gmap string value)) (r : ArcamResponse) :
  match _handle_broadcast_message data r with
  | Raise _ => False
  | Ok None => True
  | Ok (Some d') =>
      is_success r = true /\
      _handle_broadcast_message (Some d') r = Ok None /\
      exists d b key v,
        data = Some d /\ r_data r = [b] /\ d' = <[key := v]> d /\
        ((r_command_code r = POWER /\ key = "power"%string /\
          v = VBool (byte_val b =? 1)) \/
         (r_command_code r = VOLUME /\ key = "volume"%string /\
          v = VInt (byte_val b)) \/
         (r_command_code r = MUTE /\ key = "mute"%string /\
          v = VBool (byte_val b =? 1)) \/
         (r_command_code r = SOURCE /\ key = "source"%string /\
          exists n, get_source_name (byte_val b) = Some n /\ v = VStr n))
  end.
Proof.
  unfold _handle_broadcast_message.
  destruct (is_success r) eqn:Hs; cbn [negb]; [|exact I].
  destruct data as [d|]; [|exact I].
  unfold mbind, result_bind, mret, result_ret.
  destruct (decoders_by_length (r_data r)) as [[b Hb]|(Hp & Hv & Hm & Hsrc)].
  2:{ rewrite Hp, Hv, Hm, Hsrc.
      repeat (destruct (_ =? _)); rewrite dict_eqb_refl; exact I. }
  rewrite Hb.
  change (decode_power_response [b]) with (Ok (Some (byte_val b =? 1))).
  change (decode_mute_response [b]) with (Ok (Some (byte_val b =? 1))).
  change (decode_volume_response [b]) with (Ok (Some (byte_val b))).
  change (decode_source_response [b]) with (Ok (get_source_name (byte_val b))).
  destruct (Z.eqb_spec (r_command_code r) 0) as [E0|E0].
  { destruct (publish_insert d "power" (VBool (byte_val b =? 1))) as [->|[-> H2]];
      [exact I|].
    split; [reflexivity|]. split; [exact H2|].
    exists d, b, "power"%string, (VBool (byte_val b =? 1)). auto 10. }
  destruct (Z.eqb_spec (r_command_code r) 13) as [E1|E1].
  { destruct (publish_insert d "volume" (VInt (byte_val b))) as [->|[-> H2]];
      [exact I|].
    split; [reflexivity|]. split; [exact H2|].
    exists d, b, "volume"%string, (VInt (byte_val b)). auto 10. }
  destruct (Z.eqb_spec (r_command_code r) 14) as [E2|E2].
  { destruct (publish_insert d "mute" (VBool (byte_val b =? 1))) as [->|[-> H2]];
      [exact I|].
    split; [reflexivity|]. split; [exact H2|].
    exists d, b, "mute"%string, (VBool (byte_val b =? 1)). auto 10. }
  destruct (Z.eqb_spec (r_command_code r) 29) as [E3|E3].
  { destruct (get_source_name (byte_val b)) as [n|] eqn:Hn;
      [|rewrite dict_eqb_refl; exact I].
    destruct (publish_insert d "source" (VStr n)) as [->|[-> H2]]; [exact I|].
    split; [reflexivity|]. split; [exact H2|].
    exists d, b, "source"%string, (VStr n).
    repeat split. right. right. right. eauto. }
  rewrite dict_eqb_refl. exact I.
Qed.

(** A volume broadcast changes the volume entry; repeating it changes nothing. *)
Example broadcast_sets_volume :
  _handle_broadcast_message (Some {["volume"%string := VInt 10]})
    (mkArcamResponse 1 VOLUME 0 ["2"%byte]) =
  Ok (Some {["volume"%string := VInt 50]}) /\
  _handle_broadcast_message (Some {["volume"%string := VInt 50]})
    (mkArcamResponse 1 VOLUME 0 ["2"%byte]) = Ok None.
Proof. split; vm_compute; reflexivity. Qed.

Lemma code_of_friendly_elem (items : list (string * string)) (source code : string) :
  code_of_friendly items source = Some code -> (code, source) ∈ items.
Proof.
  induction items as [|[k v] items IH]; [discriminate|]. cbn [code_of_friendly].
  destruct (String.eqb_spec v source) as [->|].
  - intros [= ->]. left.
  - intros H. right. apply IH. exact H.
Qed.

Lemma SOURCE_MAPPING_codes_valid (code source : string) :
  (code, source) ∈ SOURCE_MAPPING -> is_valid_source code = true.
Proof.
  unfold SOURCE_MAPPING. intros H.
  repeat (apply elem_of_cons in H as [H|H]; [inversion H; subst; reflexivity|]).
  apply elem_of_nil in H. destruct H.
Qed.

Lemma AVAILABLE_SOURCES_valid (source : string) :
  source ∈ AVAILABLE_SOURCES -> is_valid_source source = true.
Proof.
  unfold AVAILABLE_SOURCES. intros H.
  repeat (apply elem_of_cons in H as [H|H]; [subst; reflexivity|]).
  apply elem_of_nil in H. destruct H.
Qed.

(** X26. The media player's source names and the command catalogue agree.
    Whatever name [async_select_source] resolves to a source code, that code
    is one [select_source] accepts, so the selection cannot fail on an
    unknown source. Every name shown in [source_list] resolves, and to the
    code whose friendly name it is. And every source name the device can
    report is shown in [source_list] under its friendly name. *)
Theorem media_player_sources (source : string) (b : byte) :
  match resolve_source source with
  | Some code =>
      is_valid_source code = true /\
      (exists c, ArcamCommands.select_source code 1 = Ok c) /\
      (exists c, ArcamCommands.select_source code 2 = Ok c)
  | None => source ∉ source_list
  end /\
  Forall (fun name =>
            exists code, resolve_source name = Some code /\
                         mapping_get code code = name) source_list /\
  match get_source_name (byte_val b) with
  | Some n => mapping_get n n ∈ source_list
  | None => True
  end.
Proof.
  split; [|split].
  - destruct (resolve_source source) as [code|] eqn:Hres.
    + assert (is_valid_source code = true) as Hv.
      { unfold resolve_source in Hres.
        destruct (code_of_friendly SOURCE_MAPPING source) as [c|] eqn:Hc.
        - injection Hres as ->. apply code_of_friendly_elem in Hc.
          eapply SOURCE_MAPPING_codes_valid. exact Hc.
        - destruct (bool_decide (source ∈ AVAILABLE_SOURCES)) eqn:Hin;
            [|discriminate].
          injection Hres as <-. apply bool_decide_eq_true in Hin.
          apply AVAILABLE_SOURCES_valid. exact Hin. }
      split; [exact Hv|].
      split; apply select_source_facts; (split; [lia|exact Hv]).
    + intros Hin. unfold source_list, AVAILABLE_SOURCES in Hin.
      cbn in Hin.
      repeat (apply elem_of_cons in Hin as [Hin|Hin];
              [subst; vm_compute in Hres; discriminate|]).
      apply elem_of_nil in Hin. destruct Hin.
  - unfold source_list, AVAILABLE_SOURCES. cbn [fmap list_fmap].
    repeat (constructor; [eexists; split; vm_compute; reflexivity|]).
    constructor.
  - destruct (get_source_name (byte_val b)) as [n|] eqn:Hn; [|exact I].
    unfold get_source_name in Hn. rewrite SOURCE_CODES_from_items in Hn.
    apply elem_of_list_to_map_2 in Hn. unfold SOURCE_CODES_items in Hn.
    repeat (apply elem_of_cons in Hn as [Hn|Hn];
            [injection Hn as _ ->; apply (bool_decide_unpack _); vm_compute; exact I|]).
    apply elem_of_nil in Hn. destruct Hn.
Qed.

(** X27. Whatever integer the volume conversion of [async_set_volume_level]
    yields, after the clamping step it is a volume [set_volume] accepts for
    zones 1 and 2: the command is built, and its payload reads back as the
    clamped value, which is the value itself when that was within 0..99,
    0 when it was below and 99 when it was above. *)
Theorem clamped_volume_accepted (device_volume z : Z) :
  1 <= z <= 2 ->
  (exists c, ArcamCommands.set_volume (clamp_volume device_volume) z = Ok c /\
             zone c = z /\
             decode_volume_response (data c) = Ok (Some (clamp_volume device_volume))) /\
  clamp_volume device_volume =
    (if device_volume <? 0 then 0
     else if 99 <? device_volume then 99 else device_volume).
Proof.
  intros Hz.
  assert (0 <= clamp_volume device_volume <= 99) as Hr
    by (unfold clamp_volume, VOLUME_MIN, VOLUME_MAX; lia).
  split.
  - unfold ArcamCommands.set_volume.
    rewrite (proj2 (zone_ok_iff z) Hz). cbn [negb].
    destruct (Z.leb_spec 0 (clamp_volume device_volume)); [|lia].
    destruct (Z.leb_spec (clamp_volume device_volume) 99); [|lia].
    cbn [negb andb bytes_of_ints]. unfold mbind, result_bind, mret, result_ret.
    destruct (byte_of_int_in_range (clamp_volume device_volume)) as (bv & -> & Vv);
      [lia|].
    rewrite ArcamCommand_new_valid by code_range.
    eexists. split; [reflexivity|]. split; [reflexivity|].
    cbn [data].
    change (decode_volume_response [bv]) with (Ok (Some (byte_val bv))).
    rewrite Vv. reflexivity.
  - unfold clamp_volume, VOLUME_MIN, VOLUME_MAX. zcases.
Qed.

Lemma clamped_volume_accepted_witness :
  exists c, ArcamCommands.set_volume (clamp_volume 140) 1 = Ok c /\
            zone c = 1 /\
            decode_volume_response (data c) = Ok (Some (clamp_volume 140)).
Proof.
  exact (proj1 (clamped_volume_accepted 140 1 ltac:(lia))).
Defined.

(** * The listener and the connection state *)

Lemma control_same_refl (s : Session) : control_same s s.
Proof. repeat split. Qed.

Lemma control_same_trans (s1 s2 s3 : Session) :
  control_same s1 s2 -> control_same s2 s3 -> control_same s1 s3.
Proof.
  unfold control_same. intros H1 H2.
  destruct H1 as (?&?&?&?&?&?&?&?&?), H2 as (?&?&?&?&?&?&?&?&?).
  repeat split; congruence.
Qed.

Lemma reader_only_control (s s' : Session) : reader_only s s' -> control_same s s'.
Proof. intros [ro ->]. repeat split. Qed.

Lemma listener_try_control (s s' : Session) (res : result flow) :
  listener_try s = (res, s') -> control_same s s'.
Proof.
  unfold listener_try. destruct (_reader s) as [rd|];
    [|intros [= _ <-]; apply control_same_refl].
  destruct (at_eof rd); [intros [= _ <-]; apply control_same_refl|].
  unfold mbind, M_bind, mret, M_ret, lift, logging, modify, invoke_callback.
  destruct (_read_response s) as [[bs|e] s1] eqn:Er;
    apply _read_response_only, reader_only_control in Er;
    [|intros [= _ <-]; exact Er].
  destruct (decode_response bs) as [r|e]; [|intros [= _ <-]; exact Er].
  cbn [_broadcast_callback add_log].
  destruct (_broadcast_callback s1) as [cb|].
  - destruct (cb r); intros [= _ <-];
      (eapply control_same_trans; [exact Er|]); repeat split.
  - intros [= _ <-]. eapply control_same_trans; [exact Er|]. repeat split.
Qed.

Lemma listener_iteration_control (s s' : Session) (f : flow) :
  listener_iteration s = (f, s') -> control_same s s'.
Proof.
  unfold listener_iteration.
  destruct (listener_try s) as [[f'|e] s1] eqn:Et;
    apply listener_try_control in Et; [intros [= _ <-]; exact Et|].
  destruct e; intros [= _ <-]; try exact Et;
    (eapply control_same_trans; [exact Et|]); repeat split.
Qed.

Lemma listener_loop_control (fuel : nat) : forall s s' : Session,
  listener_loop fuel s = Some s' -> control_same s s'.
Proof.
  induction fuel as [|fuel IH]; intros s s'; [discriminate|].
  cbn [listener_loop]. destruct (is_connected s);
    [|intros [= <-]; apply control_same_refl].
  destruct (listener_iteration s) as [[|] s1] eqn:Ei;
    apply listener_iteration_control in Ei.
  - intros H. eapply control_same_trans; [exact Ei|]. apply IH. exact H.
  - intros [= <-]. exact Ei.
Qed.

(** X28. However the broadcast listener ends (end of file, a frame it cannot
    read or decode, a callback that raises, a lost connection), it writes
    nothing to the device, leaves the connection flag and the reconnection
    counter as they were and creates no task: the listener never starts a
    reconnection, and it never clears the callback. It changes only the
    reader, the log and the responses delivered. *)
Theorem listener_never_reconnects (fuel : nat) (s s' : Session) :
  _broadcast_listener fuel s = Some s' ->
  control_same s s' /\
  wire s' = wire s /\
  is_connected s' = is_connected s.
Proof.
  intros H.
  assert (control_same s s') as Hc.
  { unfold _broadcast_listener in H. destruct (_reader s);
      [|injection H as <-; apply control_same_refl].
    destruct (listener_loop fuel s) as [s1|] eqn:El; [|discriminate].
    injection H as <-. apply listener_loop_control in El.
    eapply control_same_trans; [exact El|]. repeat split. }
  split; [exact Hc|].
  destruct Hc as (Hw & Hco & _). unfold wire, is_connected.
  rewrite Hw, Hco. split; reflexivity.
Qed.

Lemma listener_never_reconnects_witness :
  exists s',
    _broadcast_listener 8 garbled_session = Some s' /\
    created_tasks s' = created_tasks garbled_session /\
    is_connected s' = true.
Proof.
  assert (exists s', _broadcast_listener 8 garbled_session = Some s') as [s' E]
    by (eexists; vm_compute; reflexivity).
  exists s'. split; [exact E|].
  destruct (listener_never_reconnects 8 garbled_session s' E)
    as ((_ & _ & _ & _ & _ & _ & _ & _ & Ht) & _ & Hc).
  split; [exact Ht|]. rewrite Hc. reflexivity.
Defined.
